(** * ropwr: robust piecewise regression — facade and constraint helpers

    A shallow embedding of [ropwr/base.py] (parameter validation, method
    selection, the [RobustPWRegression] estimator) and of
    [ropwr/cvx.py] ([monotonic_trend_constraints]), followed by the
    properties of the specification that concern them.

    Conventions of the embedding
    - Python values that the code inspects dynamically ([isinstance],
      [is None], [==], [in]) are values of [pyval].
    - float64 numbers are IEEE 754 binary64 values, [spec_float] with
      precision 53 and maximal exponent 1024; comparisons are [SFcompare].
    - a Python call either returns or raises: [outcome]; a method of the
      estimator additionally threads the instance, and the instance keeps
      whatever was assigned before an exception: [M].
    - the formulation builders ([lsq_direct], [qp], [socp], ...) live in
      modules that are not part of the embedding; they are the fields of the
      class [Backend]. *)

From Stdlib Require Import ZArith List String Bool Lia SpecFloat Sorted Permutation.
Import ListNotations.

Local Open Scope string_scope.
Local Open Scope list_scope.
Local Open Scope Z_scope.

(* ================================================================== *)
(** ** Python values *)
(* ================================================================== *)

Inductive pyval : Type :=
| PyNone
| PyBool (b : bool)
| PyInt (z : Z)
| PyFloat (f : spec_float)
| PyStr (s : string).

(** Exceptions, by class; the argument names the check that failed (the
    messages themselves are not reproduced). *)
Inductive exn : Type :=
| ValueError (what : string)
| TypeError (what : string)
| NotFittedError
| IndexError
| AttributeError (what : string)
| UnboundLocalError (what : string)
| OverflowError
| SolverError (what : string).

Inductive outcome (A : Type) : Type :=
| Return (a : A)
| Raise (e : exn).

Arguments Return {A} a.
Arguments Raise {A} e.

Definition obind {A B} (m : outcome A) (k : A -> outcome B) : outcome B :=
  match m with
  | Return a => k a
  | Raise e => Raise e
  end.

Declare Scope py_scope.
Delimit Scope py_scope with py.
Notation "x <- m ;; k" := (obind m (fun x => k))
  (at level 61, m at next level, right associativity) : py_scope.
Notation "m ;; k" := (obind m (fun _ => k))
  (at level 61, right associativity) : py_scope.

(** [if c: raise e] *)
Definition raise_if (c : bool) (e : exn) : outcome unit :=
  if c then Raise e else Return tt.

(** The two error classes that the validation layer raises. *)
Definition is_configuration_error (e : exn) : bool :=
  match e with
  | ValueError _ | TypeError _ => true
  | _ => false
  end.

(* ------------------------------------------------------------------ *)
(** *** binary64 *)

Definition prec : Z := 53.
Definition emax : Z := 1024.

Definition float_of_Z (z : Z) : spec_float := binary_normalize prec emax z 0 false.

Definition f_zero : spec_float := S754_zero false.
Definition f_one : spec_float := Eval vm_compute in float_of_Z 1.

Definition fadd : spec_float -> spec_float -> spec_float := SFadd prec emax.
Definition fmul : spec_float -> spec_float -> spec_float := SFmul prec emax.

Definition is_nan (f : spec_float) : bool :=
  match f with S754_nan => true | _ => false end.

Definition is_finite (f : spec_float) : bool :=
  match f with S754_zero _ | S754_finite _ _ _ => true | _ => false end.

(* ------------------------------------------------------------------ *)
(** *** numbers.Number and the rich comparisons *)

Inductive pynum : Type :=
| NInt (z : Z)
| NFloat (f : spec_float).

(** [bool] is a subclass of [int]: [True] is the integer 1. *)
Definition as_number (v : pyval) : option pynum :=
  match v with
  | PyBool b => Some (NInt (Z.b2z b))
  | PyInt z => Some (NInt z)
  | PyFloat f => Some (NFloat f)
  | _ => None
  end.

(** Python compares an [int] with a [float] exactly, without rounding the
    integer. *)
Definition Z_SF_compare (z : Z) (f : spec_float) : option comparison :=
  match f with
  | S754_zero _ => Some (z ?= 0)
  | S754_infinity s => Some (if s then Gt else Lt)
  | S754_nan => None
  | S754_finite s m e =>
      let sm := if s then Z.neg m else Z.pos m in
      Some (if 0 <=? e then z ?= sm * 2 ^ e else z * 2 ^ (- e) ?= sm)
  end.

Definition num_compare (a b : pynum) : option comparison :=
  match a, b with
  | NInt x, NInt y => Some (x ?= y)
  | NFloat x, NFloat y => SFcompare x y
  | NInt x, NFloat y => Z_SF_compare x y
  | NFloat x, NInt y => option_map CompOpp (Z_SF_compare y x)
  end.

Definition py_compare (a b : pyval) : option comparison :=
  match as_number a, as_number b with
  | Some x, Some y => num_compare x y
  | _, _ => None
  end.

Definition py_lt (a b : pyval) : bool :=
  match py_compare a b with Some Lt => true | _ => false end.
Definition py_le (a b : pyval) : bool :=
  match py_compare a b with Some Lt | Some Eq => true | _ => false end.
Definition py_gt (a b : pyval) : bool := py_lt b a.

(** [a == b] *)
Definition py_eq (a b : pyval) : bool :=
  match a, b with
  | PyNone, PyNone => true
  | PyStr s, PyStr t => String.eqb s t
  | _, _ => match py_compare a b with Some Eq => true | _ => false end
  end.

Definition py_ne (a b : pyval) : bool := negb (py_eq a b).

(** [v in (t0, t1, ...)] *)
Definition py_in (v : pyval) (t : list pyval) : bool :=
  existsb (py_eq v) t.

Definition is_none (v : pyval) : bool :=
  match v with PyNone => true | _ => false end.

(** [bool(v)], as [if v:] and [not v] use it. *)
Definition truthy (v : pyval) : bool :=
  match v with
  | PyNone => false
  | PyBool b => b
  | PyInt z => negb (z =? 0)
  | PyFloat f => match f with S754_zero _ => false | _ => true end
  | PyStr s => match s with EmptyString => false | _ => true end
  end.

Definition isinstance_bool (v : pyval) : bool :=
  match v with PyBool _ => true | _ => false end.

(** [isinstance(v, numbers.Integral)] *)
Definition isinstance_Integral (v : pyval) : bool :=
  match v with PyBool _ | PyInt _ => true | _ => false end.

(** [isinstance(v, numbers.Number)].  Of the numbers, [pyval] has [bool],
    [int] and [float]; a [complex], which is a [numbers.Number] too and has
    no order ([lb > ub] raises [TypeError] on it), is not among the values
    modelled. *)
Definition isinstance_Number (v : pyval) : bool :=
  match v with PyBool _ | PyInt _ | PyFloat _ => true | _ => false end.

(* ================================================================== *)
(** ** base.py: validation and method selection *)
(* ================================================================== *)

Local Open Scope py_scope.

Definition _check_parameters
    (objective degree continuous monotonic_trend solver
     h_epsilon quantile verbose : pyval) : outcome unit :=
  raise_if (negb (py_in objective
                    [PyStr "l1"; PyStr "l2"; PyStr "huber"; PyStr "quantile"]))
           (ValueError "objective") ;;
  raise_if (negb (isinstance_Integral degree)
            || negb (py_le (PyInt 0) degree && py_le degree (PyInt 5)))
           (ValueError "degree") ;;
  raise_if (negb (isinstance_bool continuous))
           (TypeError "continuous") ;;
  (if negb (is_none monotonic_trend) then
     raise_if (negb (py_in monotonic_trend
                       [PyStr "ascending"; PyStr "descending";
                        PyStr "convex"; PyStr "concave"]))
              (ValueError "monotonic_trend") ;;
     raise_if (py_in monotonic_trend [PyStr "convex"; PyStr "concave"]
               && py_ne degree (PyInt 1))
              (ValueError "monotonic_trend: degree") ;;
     raise_if (py_in monotonic_trend [PyStr "convex"; PyStr "concave"]
               && negb (truthy continuous))
              (ValueError "monotonic_trend: continuous")
   else Return tt) ;;
  raise_if (negb (py_in solver
                    [PyStr "auto"; PyStr "ecos"; PyStr "osqp"; PyStr "direct"]))
           (ValueError "solver") ;;
  raise_if (negb (isinstance_Number h_epsilon)
            || py_lt h_epsilon (PyFloat f_one))
           (ValueError "h_epsilon") ;;
  raise_if (negb (isinstance_Number quantile)
            || negb (py_lt (PyFloat f_zero) quantile
                     && py_lt quantile (PyFloat f_one)))
           (ValueError "quantile") ;;
  raise_if (negb (isinstance_bool verbose))
           (TypeError "verbose").

(** The function has no [else] after the last [elif]: for a solver that is
    none of the four it falls off the end and returns [None]. *)
Definition _choose_method
    (objective degree continuous monotonic_trend solver : pyval)
    (bounded : bool) : outcome pyval :=
  if py_eq solver (PyStr "auto") then
    if bounded then
      if truthy continuous then Return (PyStr "socp")
      else Return (PyStr "socp_separated")
    else
      if py_eq objective (PyStr "l2") then
        if is_none monotonic_trend then
          if truthy continuous then Return (PyStr "lsq_direct")
          else Return (PyStr "lsq_direct_separated")
        else
          if truthy continuous then Return (PyStr "qp")
          else Return (PyStr "qp_separated")
      else
        if truthy continuous then Return (PyStr "socp")
        else Return (PyStr "socp_separated")
  else if py_eq solver (PyStr "direct") then
    if py_ne objective (PyStr "l2") || negb (is_none monotonic_trend) || bounded
    then Raise (ValueError "solver direct")
    else
      if truthy continuous then Return (PyStr "lsq_direct")
      else Return (PyStr "lsq_direct_separated")
  else if py_eq solver (PyStr "osqp") then
    if py_eq objective (PyStr "l2") then
      if truthy continuous then Return (PyStr "qp")
      else Return (PyStr "qp_separated")
    else Raise (ValueError "solver osqp")
  else if py_eq solver (PyStr "ecos") then
    if truthy continuous then Return (PyStr "socp")
    else Return (PyStr "socp_separated")
  else Return PyNone.

Definition _check_bounds (lb ub : pyval) : outcome unit :=
  (if negb (is_none lb) then
     raise_if (negb (isinstance_Number lb)) (TypeError "lb")
   else Return tt) ;;
  (if negb (is_none ub) then
     raise_if (negb (isinstance_Number ub)) (TypeError "ub")
   else Return tt) ;;
  (if negb (is_none lb) && negb (is_none ub) then
     raise_if (py_gt lb ub) (ValueError "lb > ub")
   else Return tt).

(* ================================================================== *)
(** ** The numpy and scikit-learn functions that base.py calls *)
(* ================================================================== *)

(** One-dimensional float64 arrays. *)
Definition array : Type := list spec_float.

(** Ordering used by numpy's sorting and searching: NaN is placed last. *)
Definition npy_lt (a b : spec_float) : bool :=
  SFltb a b || (is_nan b && negb (is_nan a)).

(** [sklearn.utils.check_array(a, ensure_2d=False, force_all_finite=True)]:
    rejects NaN and infinities, and an array with no sample. *)
Definition check_array (a : array) : outcome array :=
  raise_if (negb (forallb is_finite a)) (ValueError "check_array: not finite") ;;
  raise_if (Nat.eqb (List.length a) 0) (ValueError "check_array: no samples") ;;
  Return a.

Definition check_consistent_length (x y : array) : outcome unit :=
  raise_if (negb (Nat.eqb (List.length x) (List.length y)))
           (ValueError "inconsistent numbers of samples").

(** [np.argsort]: the indices that sort the array.  The default kind of
    sort of numpy is not stable: among equal elements it may leave any
    order.  The function below fixes one admissible order, the one of a
    stable sort; what is stated about the data that [fit] passes on
    depends only on the indices being a permutation that sorts the array
    ([argsort_perm], [take_argsort_sorted]). *)
Fixpoint argsort_insert (i : nat) (v : spec_float) (l : list (nat * spec_float))
  : list (nat * spec_float) :=
  match l with
  | [] => [(i, v)]
  | (j, w) :: t =>
      if npy_lt w v then (j, w) :: argsort_insert i v t
      else (i, v) :: (j, w) :: t
  end.

Definition argsort (a : array) : list nat :=
  map fst (fold_right (fun iv acc => argsort_insert (fst iv) (snd iv) acc) []
                      (combine (seq 0 (List.length a)) a)).

(** [a[idx]] for an index array [idx]. *)
Definition take (a : array) (idx : list nat) : array :=
  map (fun i => nth i a S754_nan) idx.

(** [set(a)]: the elements of [a] that are pairwise different for [==];
    its length is [len(set(a))]. *)
Fixpoint py_set (a : array) : array :=
  match a with
  | [] => []
  | v :: t => v :: filter (fun w => negb (SFeqb w v)) (py_set t)
  end.

(** [check_array_monotonic] of numpy's [digitize]: 1 for non-decreasing
    bins, -1 for non-increasing bins, 0 otherwise. *)
Fixpoint skip_repeated (last : spec_float) (a : array) : array :=
  match a with
  | v :: t => if SFeqb v last then skip_repeated last t else a
  | [] => []
  end.

Fixpoint never_descends (last : spec_float) (a : array) : bool :=
  match a with
  | [] => true
  | next :: t => if SFltb next last then false else never_descends next t
  end.

Fixpoint never_ascends (last : spec_float) (a : array) : bool :=
  match a with
  | [] => true
  | next :: t => if SFltb last next then false else never_ascends next t
  end.

Definition check_array_monotonic (a : array) : Z :=
  match a with
  | [] => 1
  | last :: t =>
      match skip_repeated last t with
      | [] => 1
      | next :: t' =>
          if SFltb last next
          then (if never_descends next t' then 1 else 0)
          else (if never_ascends next t' then -1 else 0)
      end
  end.

(** [np.searchsorted(a, v, side='right')] for a sorted [a]: the first index
    whose element is greater than [v], [len(a)] when there is none. *)
Fixpoint searchsorted_right (a : array) (v : spec_float) : nat :=
  match a with
  | [] => 0%nat
  | h :: t => if npy_lt v h then 0%nat else S (searchsorted_right t v)
  end.

(** [np.digitize(x, bins, right=False)], for bins without NaN. *)
Definition digitize (x bins : array) : outcome (list nat) :=
  let mono := check_array_monotonic bins in
  raise_if (mono =? 0) (ValueError "bins must be monotonic") ;;
  if mono =? -1 then
    Return (map (fun v => (List.length bins - searchsorted_right (rev bins) v)%nat) x)
  else
    Return (map (searchsorted_right bins) x).

Definition zeros (n : nat) : array := repeat f_zero n.

(** [np.polyval(p, x)]:
    [y = zeros_like(x); for pv in p: y = y * x + pv]. *)
Definition polyval (p : array) (x : array) : array :=
  fold_left
    (fun y pv => map (fun yx => fadd (fmul (fst yx) (snd yx)) pv) (combine y x))
    p (zeros (List.length x)).

(** Boolean-mask indexing: [x[mask]] and [pred[mask] = vals]. *)
Fixpoint mask_select (x : array) (mask : list bool) : array :=
  match x, mask with
  | v :: x', true :: m' => v :: mask_select x' m'
  | _ :: x', false :: m' => mask_select x' m'
  | _, _ => []
  end.

Fixpoint mask_assign (pred : array) (mask : list bool) (vals : array) : array :=
  match pred, mask with
  | p :: pred', true :: m' =>
      match vals with
      | v :: vals' => v :: mask_assign pred' m' vals'
      | [] => p :: mask_assign pred' m' []
      end
  | p :: pred', false :: m' => p :: mask_assign pred' m' vals
  | _, _ => pred
  end.

(** [np.maximum] and [np.minimum]: a NaN operand gives NaN, and the first
    operand is returned only where it is strictly the larger (the smaller)
    one, so that of two zeros the second is returned, whatever the signs. *)
Definition np_maximum (a b : spec_float) : spec_float :=
  if is_nan a then a else if SFltb b a then a else b.

Definition np_minimum (a b : spec_float) : spec_float :=
  if is_nan a then a else if SFltb a b then a else b.

(** The kernel of [np.clip] with both bounds.  A NaN bound fills the result
    with NaN; otherwise a value is replaced only where it is strictly
    outside the bounds, so that NaN stays NaN and a zero keeps its sign
    against a bound that is the other zero. *)
Definition npy_clip (x lo hi : spec_float) : spec_float :=
  if is_nan lo || is_nan hi then S754_nan
  else
    let x := if SFltb x lo then lo else x in
    if SFltb hi x then hi else x.

(** A Python scalar bound becomes a float64. *)
Definition to_float64 (v : pyval) : outcome spec_float :=
  match v with
  | PyFloat f => Return f
  | PyInt z =>
      let f := float_of_Z z in
      if is_finite f then Return f else Raise OverflowError
  | PyBool b => Return (float_of_Z (Z.b2z b))
  | _ => Raise (TypeError "clip bound")
  end.

(** [np.clip(pred, lb, ub)], where a bound may be [None]. *)
Definition np_clip (pred : array) (lb ub : pyval) : outcome array :=
  match is_none lb, is_none ub with
  | true, true => Raise (ValueError "clip: no bound")
  | true, false =>
      hi <- to_float64 ub ;; Return (map (fun p => np_minimum p hi) pred)
  | false, true =>
      lo <- to_float64 lb ;; Return (map (fun p => np_maximum p lo) pred)
  | false, false =>
      lo <- to_float64 lb ;;
      hi <- to_float64 ub ;;
      Return (map (fun p => npy_clip p lo hi) pred)
  end.

(* ================================================================== *)
(** ** base.py: splits *)
(* ================================================================== *)

Definition _check_splits (splits : array) : outcome array :=
  user_splits <- check_array splits ;;
  raise_if (negb (Nat.eqb (List.length (py_set user_splits)) (List.length user_splits)))
           (ValueError "splits are not unique") ;;
  let sorted_idx := argsort user_splits in
  let user_splits := take user_splits sorted_idx in
  Return user_splits.

(* ================================================================== *)
(** ** The formulation builders *)
(* ================================================================== *)

(** The coefficient table: one row per segment, ascending powers. *)
Definition coef_table : Type := list array.

(** [ropwr.direct], [ropwr.cvx_socp] and [ropwr.cvx_qp]: each builder
    receives the arguments that [fit] passes and returns the coefficient
    table or raises. *)
Class Backend : Type := {
  lsq_direct : array -> array -> array -> pyval -> outcome coef_table;
  lsq_direct_separated : array -> array -> array -> pyval -> outcome coef_table;
  socp : array -> array -> array -> pyval -> pyval -> pyval -> pyval ->
         pyval -> pyval -> pyval -> pyval -> pyval -> outcome coef_table;
  socp_separated : array -> array -> array -> pyval -> pyval -> pyval -> pyval ->
         pyval -> pyval -> pyval -> pyval -> pyval -> outcome coef_table;
  qp : array -> array -> array -> pyval -> pyval -> pyval -> pyval -> pyval ->
       outcome coef_table;
  qp_separated : array -> array -> array -> pyval -> pyval -> pyval -> pyval ->
       pyval -> outcome coef_table
}.

(* ================================================================== *)
(** ** base.py: class RobustPWRegression *)
(* ================================================================== *)

(** The attributes of an instance.  [coef_] is [None] until a fit succeeds;
    the attribute [_splits] does not exist until then. *)
Record estimator : Type := mkEstimator {
  objective : pyval;
  degree : pyval;
  continuous : pyval;
  monotonic_trend : pyval;
  solver : pyval;
  h_epsilon : pyval;
  quantile : pyval;
  verbose : pyval;
  coef_ : option coef_table;
  _splits : option array;
  _is_fitted : bool
}.

(** A method: it reads and assigns attributes of [self], and returns or
    raises.  Attributes assigned before a [raise] stay assigned. *)
Definition M (A : Type) : Type := estimator -> outcome A * estimator.

Definition mret {A} (a : A) : M A := fun self => (Return a, self).

Definition mbind {A B} (m : M A) (k : A -> M B) : M B :=
  fun self =>
    match m self with
    | (Return a, self') => k a self'
    | (Raise e, self') => (Raise e, self')
    end.

Definition lift {A} (o : outcome A) : M A := fun self => (o, self).

Definition get_self : M estimator := fun self => (Return self, self).

Declare Scope method_scope.
Delimit Scope method_scope with method.
Notation "x <- m ;; k" := (mbind m (fun x => k))
  (at level 61, m at next level, right associativity) : method_scope.
Notation "m ;; k" := (mbind m (fun _ => k))
  (at level 61, right associativity) : method_scope.

(** [self.coef_ = c], [self._splits = splits], [self._is_fitted = b] *)
Definition set_coef_ (c : coef_table) : M unit :=
  fun self =>
    (Return tt,
     mkEstimator (objective self) (degree self) (continuous self)
       (monotonic_trend self) (solver self) (h_epsilon self) (quantile self)
       (verbose self) (Some c) (_splits self) (_is_fitted self)).

Definition set_splits (splits : array) : M unit :=
  fun self =>
    (Return tt,
     mkEstimator (objective self) (degree self) (continuous self)
       (monotonic_trend self) (solver self) (h_epsilon self) (quantile self)
       (verbose self) (coef_ self) (Some splits) (_is_fitted self)).

Definition set_is_fitted (b : bool) : M unit :=
  fun self =>
    (Return tt,
     mkEstimator (objective self) (degree self) (continuous self)
       (monotonic_trend self) (solver self) (h_epsilon self) (quantile self)
       (verbose self) (coef_ self) (_splits self) b).

Definition __init__ (objective degree continuous monotonic_trend solver
                     h_epsilon quantile verbose : pyval) : estimator :=
  mkEstimator objective degree continuous monotonic_trend solver
              h_epsilon quantile verbose None None false.

(** The instance that the default arguments of the constructor give. *)
Definition default_estimator : estimator :=
  __init__ (PyStr "l2") (PyInt 1) (PyBool true) PyNone (PyStr "auto")
           (PyFloat (S754_finite false 6079859496950170 (-52)))
           (PyFloat (S754_finite false 4503599627370496 (-53)))
           (PyBool false).

(** The [if _method == ...: c = ...] chain of [fit]; when no branch is
    taken, [c] is unbound at [self.coef_ = c]. *)
Definition solve `{Backend} (self : estimator) (_method : pyval)
    (xs ys splits : array) (lb ub : pyval) : outcome coef_table :=
  if py_eq _method (PyStr "lsq_direct") then
    lsq_direct xs ys splits (degree self)
  else if py_eq _method (PyStr "lsq_direct_separated") then
    lsq_direct_separated xs ys splits (degree self)
  else if py_eq _method (PyStr "socp") then
    socp xs ys splits (degree self) lb ub (objective self)
         (monotonic_trend self) (h_epsilon self) (quantile self)
         (solver self) (verbose self)
  else if py_eq _method (PyStr "socp_separated") then
    socp_separated xs ys splits (degree self) lb ub (objective self)
         (monotonic_trend self) (h_epsilon self) (quantile self)
         (solver self) (verbose self)
  else if py_eq _method (PyStr "qp") then
    qp xs ys splits (degree self) lb ub (monotonic_trend self) (verbose self)
  else if py_eq _method (PyStr "qp_separated") then
    qp_separated xs ys splits (degree self) lb ub (monotonic_trend self)
                 (verbose self)
  else Raise (UnboundLocalError "c").

Local Open Scope method_scope.

(** [fit] returns [self]: the instance after the call is the state that
    the method leaves. *)
Definition fit `{Backend} (x y splits : array) (lb ub : pyval) : M unit :=
  self <- get_self ;;
  lift (_check_parameters (objective self) (degree self) (continuous self)
          (monotonic_trend self) (solver self) (h_epsilon self)
          (quantile self) (verbose self)) ;;
  x <- lift (check_array x) ;;
  y <- lift (check_array y) ;;
  lift (check_consistent_length x y) ;;
  let idx := argsort x in
  let xs := take x idx in
  let ys := take y idx in
  lift (_check_splits splits) ;;
  let bounded := negb (is_none lb) || negb (is_none ub) in
  (if bounded then lift (_check_bounds lb ub) else mret tt) ;;
  self <- get_self ;;
  _method <- lift (_choose_method (objective self) (degree self)
                     (continuous self) (monotonic_trend self) (solver self)
                     bounded) ;;
  self <- get_self ;;
  c <- lift (solve self _method xs ys splits lb ub) ;;
  set_coef_ c ;;
  set_splits splits ;;
  set_is_fitted true.

Local Close Scope method_scope.

(** The instance after the three assignments that end [fit]. *)
Definition fitted_with (self : estimator) (c : coef_table) (splits : array)
  : estimator :=
  mkEstimator (objective self) (degree self) (continuous self)
    (monotonic_trend self) (solver self) (h_epsilon self) (quantile self)
    (verbose self) (Some c) (Some splits) true.

(** [self.coef_[i, :]] *)
Definition coef_row (coef : option coef_table) (i : nat) : outcome array :=
  match coef with
  | None => Raise (TypeError "coef_ is None")
  | Some c =>
      match nth_error c i with
      | Some row => Return row
      | None => Raise IndexError
      end
  end.

(** The loop [for i in range(n_bins)] of [predict]. *)
Fixpoint predict_loop (coef : option coef_table) (x : array)
    (indices : list nat) (bins : list nat) (pred : array) : outcome array :=
  match bins with
  | [] => Return pred
  | i :: rest =>
      let mask := map (Nat.eqb i) indices in
      row <- coef_row coef i ;;
      predict_loop coef x indices rest
        (mask_assign pred mask (polyval (rev row) (mask_select x mask)))
  end.

(** [predict] on an ndarray [x].  The method does not convert [x]: what it
    does with an [x] that is not an ndarray is [predict_array_like]
    below. *)
Definition predict (self : estimator) (x : array) (lb ub : pyval)
  : outcome array :=
  raise_if (negb (_is_fitted self)) NotFittedError ;;
  let bounded := negb (is_none lb) || negb (is_none ub) in
  (if bounded then _check_bounds lb ub else Return tt) ;;
  splits <- match _splits self with
            | Some s => Return s
            | None => Raise (AttributeError "_splits")
            end ;;
  let n_bins := (List.length splits + 1)%nat in
  indices <- digitize x splits ;;
  let pred := zeros (List.length x) in
  pred <- predict_loop (coef_ self) x indices (seq 0 n_bins) pred ;;
  let bounded := negb (is_none lb) || negb (is_none ub) in
  if bounded then np_clip pred lb ub else Return pred.

(** The argument [x] is documented as array-like.  [fit] converts its data
    with [check_array]; [predict] uses [x] as it is given: [np.digitize]
    accepts a list, which has no attribute [shape]. *)
Inductive array_like : Type :=
| NdArray (a : array)
| PyList (l : array).

Definition np_asarray (x : array_like) : array :=
  match x with NdArray a => a | PyList l => l end.

(** [x.shape], for a vector the number of its elements. *)
Definition shape (x : array_like) : outcome nat :=
  match x with
  | NdArray a => Return (List.length a)
  | PyList _ => Raise (AttributeError "shape")
  end.

Definition predict_array_like (self : estimator) (x : array_like)
    (lb ub : pyval) : outcome array :=
  raise_if (negb (_is_fitted self)) NotFittedError ;;
  let bounded := negb (is_none lb) || negb (is_none ub) in
  (if bounded then _check_bounds lb ub else Return tt) ;;
  splits <- match _splits self with
            | Some s => Return s
            | None => Raise (AttributeError "_splits")
            end ;;
  let n_bins := (List.length splits + 1)%nat in
  indices <- digitize (np_asarray x) splits ;;
  n_samples <- shape x ;;
  let pred := zeros n_samples in
  pred <- predict_loop (coef_ self) (np_asarray x) indices (seq 0 n_bins) pred ;;
  let bounded := negb (is_none lb) || negb (is_none ub) in
  if bounded then np_clip pred lb ub else Return pred.

Definition fit_predict `{Backend} (x y splits : array) (lb ub : pyval)
  : M array :=
  mbind (fit x y splits lb ub)
        (fun _ => mbind get_self (fun self => lift (predict self x lb ub))).

(* ================================================================== *)
(** ** cvx.py *)
(* ================================================================== *)

(** Python slices [l[:t]] and [l[t:]] for [t] an integer or [None]. *)
Definition slice_bound (n : nat) (t : Z) : nat :=
  if t <? 0 then Z.to_nat (Z.max 0 (Z.of_nat n + t))
  else Nat.min n (Z.to_nat t).

Definition slice_to {A} (l : list A) (t : option Z) : list A :=
  match t with
  | None => l
  | Some t => firstn (slice_bound (List.length l) t) l
  end.

Definition slice_from {A} (l : list A) (t : option Z) : list A :=
  match t with
  | None => l
  | Some t => skipn (slice_bound (List.length l) t) l
  end.

Section Constraints.

(** The entries of the matrix [D] and the cvxpy variable [c]. *)
Variables (T V : Type).

Definition matrix : Type := list (list T).

(** The cvxpy expression [D * c] and the constraints [e >= 0], [e <= 0]. *)
Inductive expression : Type :=
| MulExpression (D : matrix) (c : V).

Inductive constraint : Type :=
| GeZero (e : expression)
| LeZero (e : expression).

(** What the function returns: a constraint, a list of two, or [None]. *)
Inductive trend_constraints : Type :=
| OneConstraint (k : constraint)
| TwoConstraints (k1 k2 : constraint)
| NoConstraints.

Definition monotonic_trend_constraints (monotonic_trend : pyval) (c : V)
    (D : matrix) (t : option Z) : trend_constraints :=
  if py_in monotonic_trend [PyStr "ascending"; PyStr "convex"] then
    OneConstraint (GeZero (MulExpression D c))
  else if py_in monotonic_trend [PyStr "descending"; PyStr "concave"] then
    OneConstraint (LeZero (MulExpression D c))
  else if py_eq monotonic_trend (PyStr "valley") then
    TwoConstraints (LeZero (MulExpression (slice_to D t) c))
                   (GeZero (MulExpression (slice_from D t) c))
  else if py_eq monotonic_trend (PyStr "peak") then
    TwoConstraints (GeZero (MulExpression (slice_to D t) c))
                   (LeZero (MulExpression (slice_from D t) c))
  else NoConstraints.

End Constraints.

Arguments MulExpression {T V} D c.
Arguments GeZero {T V} e.
Arguments LeZero {T V} e.
Arguments OneConstraint {T V} k.
Arguments TwoConstraints {T V} k1 k2.
Arguments NoConstraints {T V}.
Arguments monotonic_trend_constraints {T V} monotonic_trend c D t.

(* ================================================================== *)
(** ** The decision table of the specification (section 4.3) *)
(* ================================================================== *)

(** The table is written over closed enumerations, one per axis, as the
    specification's design notes suggest; [method_selector] follows the
    rows of the table, not the code. *)
Module DecisionTable.

Inductive Objective : Type := L1 | L2 | Huber | Quantile.
Inductive ShapeConstraint : Type := Ascending | Descending | Convex | Concave.
Inductive SolverChoice : Type := Auto | Ecos | Osqp | Direct.

Inductive family : Type :=
| DirectLeastSquares
| QuadraticProgram
| SecondOrderConeProgram.

(** An outcome of the table: a formulation, continuous or separated per
    the continuity flag, or the hard error. *)
Inductive selection : Type :=
| Formulation (f : family) (separated : bool)
| IncompatibleConfiguration.

Definition is_l2 (o : Objective) : bool :=
  match o with L2 => true | _ => false end.

Definition shape_set (sh : option ShapeConstraint) : bool :=
  match sh with Some _ => true | None => false end.

Definition method_selector (s : SolverChoice) (o : Objective)
    (continuity : bool) (shape : option ShapeConstraint) (bounded : bool)
  : selection :=
  let per_continuity f := Formulation f (negb continuity) in
  match s with
  | Direct =>
      if negb (is_l2 o) || shape_set shape || bounded
      then IncompatibleConfiguration
      else per_continuity DirectLeastSquares
  | Osqp =>
      if negb (is_l2 o) then IncompatibleConfiguration
      else per_continuity QuadraticProgram
  | Ecos => per_continuity SecondOrderConeProgram
  | Auto =>
      if bounded then per_continuity SecondOrderConeProgram
      else if is_l2 o && negb (shape_set shape)
      then per_continuity DirectLeastSquares
      else if is_l2 o && shape_set shape
      then per_continuity QuadraticProgram
      else per_continuity SecondOrderConeProgram
  end.

(** How the enumerations are spelled in the Python interface. *)
Definition objective_value (o : Objective) : pyval :=
  PyStr match o with
        | L1 => "l1" | L2 => "l2" | Huber => "huber" | Quantile => "quantile"
        end.

Definition solver_value (s : SolverChoice) : pyval :=
  PyStr match s with
        | Auto => "auto" | Ecos => "ecos" | Osqp => "osqp" | Direct => "direct"
        end.

Definition shape_value (sh : option ShapeConstraint) : pyval :=
  match sh with
  | None => PyNone
  | Some Ascending => PyStr "ascending"
  | Some Descending => PyStr "descending"
  | Some Convex => PyStr "convex"
  | Some Concave => PyStr "concave"
  end.

Definition formulation_tag (f : family) (separated : bool) : string :=
  match f, separated with
  | DirectLeastSquares, false => "lsq_direct"
  | DirectLeastSquares, true => "lsq_direct_separated"
  | QuadraticProgram, false => "qp"
  | QuadraticProgram, true => "qp_separated"
  | SecondOrderConeProgram, false => "socp"
  | SecondOrderConeProgram, true => "socp_separated"
  end.

(** The code's answer agrees with a row of the table. *)
Definition agrees (sel : selection) (o : outcome pyval) : Prop :=
  match sel, o with
  | Formulation f separated, Return v => v = PyStr (formulation_tag f separated)
  | IncompatibleConfiguration, Raise e => is_configuration_error e = true
  | _, _ => False
  end.

End DecisionTable.

(** The six canonical formulation tags. *)
Definition canonical_methods : list string :=
  ["lsq_direct"; "lsq_direct_separated"; "qp"; "qp_separated";
   "socp"; "socp_separated"].

(** One of the six tags, or a configuration error; in particular not the
    [None] of a fall-through. *)
Definition canonical_or_error (o : outcome pyval) : Prop :=
  match o with
  | Return v => exists tag, v = PyStr tag /\ In tag canonical_methods
  | Raise e => is_configuration_error e = true
  end.


(* ================================================================== *)
(** ** Instances used in the examples *)
(* ================================================================== *)

(** A builder that answers with a piecewise constant function, 10 on the
    first segment, 20 on the second, and so on. *)
Definition staircase (splits : array) : coef_table :=
  map (fun i => [float_of_Z (10 * (Z.of_nat i + 1))])
      (seq 0 (List.length splits + 1)).

Definition staircase_backend : Backend := {|
  lsq_direct := fun _ _ splits _ => Return (staircase splits);
  lsq_direct_separated := fun _ _ splits _ => Return (staircase splits);
  socp := fun _ _ splits _ _ _ _ _ _ _ _ _ => Return (staircase splits);
  socp_separated := fun _ _ splits _ _ _ _ _ _ _ _ _ => Return (staircase splits);
  qp := fun _ _ splits _ _ _ _ _ => Return (staircase splits);
  qp_separated := fun _ _ splits _ _ _ _ _ => Return (staircase splits)
|}.

(** A builder that answers with the splits it was given, as the only row
    of the table: it makes the argument of the builder observable. *)
Definition echo_backend : Backend := {|
  lsq_direct := fun _ _ splits _ => Return [splits];
  lsq_direct_separated := fun _ _ splits _ => Return [splits];
  socp := fun _ _ splits _ _ _ _ _ _ _ _ _ => Return [splits];
  socp_separated := fun _ _ splits _ _ _ _ _ _ _ _ _ => Return [splits];
  qp := fun _ _ splits _ _ _ _ _ => Return [splits];
  qp_separated := fun _ _ splits _ _ _ _ _ => Return [splits]
|}.

(** A builder whose solve fails. *)
Definition failing_backend : Backend := {|
  lsq_direct := fun _ _ _ _ => Raise (SolverError "lsq_direct");
  lsq_direct_separated := fun _ _ _ _ => Raise (SolverError "lsq_direct_separated");
  socp := fun _ _ _ _ _ _ _ _ _ _ _ _ => Raise (SolverError "socp");
  socp_separated := fun _ _ _ _ _ _ _ _ _ _ _ _ => Raise (SolverError "socp_separated");
  qp := fun _ _ _ _ _ _ _ _ => Raise (SolverError "qp");
  qp_separated := fun _ _ _ _ _ _ _ _ => Raise (SolverError "qp_separated")
|}.

(** The float64 written as the integer literal [z]. *)
Definition F (z : Z) : spec_float := float_of_Z z.

(** Instances on which no call of [fit] has returned yet: a new instance,
    and what a call of [fit] that raised leaves behind. *)
Inductive never_fitted `{Backend} : estimator -> Prop :=
| nf_init objective degree continuous monotonic_trend solver
          h_epsilon quantile verbose :
    never_fitted (__init__ objective degree continuous monotonic_trend solver
                           h_epsilon quantile verbose)
| nf_fit_raised self x y splits lb ub e self' :
    never_fitted self ->
    fit x y splits lb ub self = (Raise e, self') ->
    never_fitted self'.

(** [lb <= p] and [p <= ub], for the bounds that are given. *)
Definition above (lb : pyval) (p : spec_float) : Prop :=
  lb = PyNone \/ py_le lb (PyFloat p) = true.

Definition below (ub : pyval) (p : spec_float) : Prop :=
  ub = PyNone \/ py_le (PyFloat p) ub = true.

(** A bound of the documented type: [float or None]. *)
Definition float_or_none (v : pyval) : Prop :=
  v = PyNone \/ exists f, v = PyFloat f.

Definition nan_bound (v : pyval) : Prop := v = PyFloat S754_nan.

(** The float64 values among the triples of [spec_float]: the mantissa and
    the exponent are in the one form that the format has for a number. *)
Definition valid64 (f : spec_float) : bool := valid_binary prec emax f.

(** The integers that float64 represents: the conversion does not round. *)
Definition exact_int (z : Z) : bool :=
  valid64 (float_of_Z z) &&
  match Z_SF_compare z (float_of_Z z) with Some Eq => true | _ => false end.



(** Horner's rule on one sample: what [polyval] computes elementwise. *)
Definition horner (p : array) (v : spec_float) : spec_float :=
  fold_left (fun y pv => fadd (fmul y v) pv) p f_zero.

(** The value that the loop leaves for a sample of segment [k]. *)
Definition loop_value (coef : coef_table) (bins : list nat)
    (pkv : spec_float * (nat * spec_float)) : spec_float :=
  if existsb (fun i => Nat.eqb i (fst (snd pkv))) bins then
    match nth_error coef (fst (snd pkv)) with
    | Some row => horner (rev row) (snd (snd pkv))
    | None => fst pkv
    end
  else fst pkv.

(** The order in which [argsort] leaves an array: no element is followed by
    a smaller one. *)
Definition non_descending (a : array) : Prop :=
  Sorted (fun v w => npy_lt w v = false) a.

(** Strictly ascending split points. *)
Definition ascending (splits : array) : Prop :=
  Sorted (fun a b => SFltb a b = true) splits.

(** Right-open binning: segment [k] is the interval from [splits[k-1]] on,
    up to [splits[k]] excluded.  ([npy_lt v s] reads [v < s], with NaN
    after every number.) *)
Definition in_segment (splits : array) (v : spec_float) (k : nat) : Prop :=
  (k <= List.length splits)%nat /\
  (forall s, nth_error splits k = Some s -> npy_lt v s = true) /\
  (forall j s, (j < k)%nat -> nth_error splits j = Some s ->
               npy_lt v s = false).

(* ================================================================== *)
(** ** Further notions *)
(* ================================================================== *)

(** No two elements of the array are equal for [==]. *)
Definition pairwise_distinct (a : array) : Prop :=
  ForallOrdPairs (fun v w => SFeqb w v = false) a.

(** Two instances that were constructed with the same parameters. *)
Definition same_parameters (s1 s2 : estimator) : Prop :=
  objective s1 = objective s2 /\ degree s1 = degree s2 /\
  continuous s1 = continuous s2 /\ monotonic_trend s1 = monotonic_trend s2 /\
  solver s1 = solver s2 /\ h_epsilon s1 = h_epsilon s2 /\
  quantile s1 = quantile s2 /\ verbose s1 = verbose s2.

(** The fitted attributes go together: either [_is_fitted] is set and both
    [coef_] and [_splits] hold a value, or none of the three is. *)
Definition consistent (self : estimator) : Prop :=
  if _is_fitted self
  then coef_ self <> None /\ _splits self <> None
  else coef_ self = None /\ _splits self = None.

(** The same number: the same float, or two zeros (which may differ in
    sign). *)
Definition same_number (a b : spec_float) : Prop :=
  a = b \/ exists s s', a = S754_zero s /\ b = S754_zero s'.

(* ================================================================== *)
(** * Properties *)
(* ================================================================== *)

(** ** Sequencing *)

Lemma obind_raise_if_Return {A} (c : bool) (e : exn) (k : unit -> outcome A) a :
  obind (raise_if c e) k = Return a -> c = false /\ k tt = Return a.
Proof.
  destruct c; simpl; [discriminate | auto].
Qed.

Lemma obind_Return_inv {A B} (m : outcome A) (k : A -> outcome B) b :
  obind m k = Return b -> exists a, m = Return a /\ k a = Return b.
Proof.
  destruct m; simpl; [eauto | discriminate].
Qed.

(** ** Strings in tuples *)

Lemma py_eq_str v s : py_eq v (PyStr s) = true -> v = PyStr s.
Proof.
  destruct v; simpl; try discriminate.
  intros H; apply String.eqb_eq in H; now subst.
Qed.

Lemma py_in_strs v (l : list string) :
  py_in v (map PyStr l) = true -> exists s, v = PyStr s /\ In s l.
Proof.
  unfold py_in; rewrite existsb_exists.
  intros (w & Hin & Heq); apply in_map_iff in Hin as (s & <- & Hs).
  apply py_eq_str in Heq; eauto.
Qed.

Lemma is_none_true v : is_none v = true -> v = PyNone.
Proof. destruct v; simpl; congruence. Qed.

Lemma isinstance_bool_true v : isinstance_bool v = true -> exists b, v = PyBool b.
Proof. destruct v; simpl; try discriminate; eauto. Qed.

(** ** What validation establishes *)

Import DecisionTable.

Lemma objective_in_tuple v :
  py_in v [PyStr "l1"; PyStr "l2"; PyStr "huber"; PyStr "quantile"] = true ->
  exists o, v = objective_value o.
Proof.
  intros H; apply (py_in_strs v ["l1"; "l2"; "huber"; "quantile"]) in H.
  destruct H as (s & -> & [<-|[<-|[<-|[<-|[]]]]]);
    [exists L1 | exists L2 | exists Huber | exists Quantile]; reflexivity.
Qed.

Lemma solver_in_tuple v :
  py_in v [PyStr "auto"; PyStr "ecos"; PyStr "osqp"; PyStr "direct"] = true ->
  exists s, v = solver_value s.
Proof.
  intros H; apply (py_in_strs v ["auto"; "ecos"; "osqp"; "direct"]) in H.
  destruct H as (s & -> & [<-|[<-|[<-|[<-|[]]]]]);
    [exists Auto | exists Ecos | exists Osqp | exists Direct]; reflexivity.
Qed.

Lemma trend_in_tuple v :
  py_in v [PyStr "ascending"; PyStr "descending"; PyStr "convex";
           PyStr "concave"] = true ->
  exists sh, v = shape_value (Some sh).
Proof.
  intros H;
    apply (py_in_strs v ["ascending"; "descending"; "convex"; "concave"]) in H.
  destruct H as (s & -> & [<-|[<-|[<-|[<-|[]]]]]);
    [exists Ascending | exists Descending | exists Convex | exists Concave];
    reflexivity.
Qed.

(** A parameter set that passes [_check_parameters] spells one point of the
    enumerations; with a convex or concave trend the degree equals 1 and
    [continuous] is [True]. *)
Lemma check_parameters_inv
    objective degree continuous monotonic_trend solver h_epsilon quantile verbose :
  _check_parameters objective degree continuous monotonic_trend solver
                    h_epsilon quantile verbose = Return tt ->
  (exists o, objective = objective_value o) /\
  (exists c, continuous = PyBool c) /\
  (exists sh, monotonic_trend = shape_value sh) /\
  (exists s, solver = solver_value s) /\
  (py_in monotonic_trend [PyStr "convex"; PyStr "concave"] = true ->
   py_eq degree (PyInt 1) = true /\ continuous = PyBool true).
Proof.
  unfold _check_parameters; intros H.
  apply obind_raise_if_Return in H as [Hobj H].
  apply obind_raise_if_Return in H as [_ H].
  apply obind_raise_if_Return in H as [Hcont H].
  apply obind_Return_inv in H as ([] & Htrend & H).
  apply obind_raise_if_Return in H as [Hsolver _].
  apply negb_false_iff in Hobj, Hcont, Hsolver.
  apply isinstance_bool_true in Hcont as [c ->].
  split; [now apply objective_in_tuple |].
  split; [now exists c |].
  split; [| split; [now apply solver_in_tuple |]].
  - destruct (is_none monotonic_trend) eqn:Hnone; cbn [negb] in Htrend.
    + apply is_none_true in Hnone; exists None; now subst.
    + apply obind_raise_if_Return in Htrend as [Hin _].
      apply negb_false_iff, trend_in_tuple in Hin as [sh ->]; eauto.
  - intros Hcc.
    destruct (is_none monotonic_trend) eqn:Hnone; cbn [negb] in Htrend;
      [apply is_none_true in Hnone; subst; discriminate |].
    apply obind_raise_if_Return in Htrend as [_ Htrend].
    apply obind_raise_if_Return in Htrend as [Hdeg Htrend].
    unfold raise_if in Htrend; rewrite Hcc in Hdeg, Htrend; cbn [andb negb truthy] in *.
    unfold py_ne in Hdeg; apply negb_false_iff in Hdeg.
    destruct c; [auto | discriminate].
Qed.

Lemma obind_raise_if_Raise {A} (c : bool) (e0 e : exn) (k : unit -> outcome A) :
  obind (raise_if c e0) k = Raise e -> e = e0 \/ k tt = Raise e.
Proof.
  destruct c; simpl; [intros [= <-]; now left | now right].
Qed.

Lemma obind_Raise_inv {A B} (m : outcome A) (k : A -> outcome B) e :
  obind m k = Raise e -> m = Raise e \/ exists a, m = Return a /\ k a = Raise e.
Proof.
  destruct m; simpl; [right; eauto | intros [= <-]; now left].
Qed.

Lemma raise_if_Raise (c : bool) (e0 e : exn) :
  raise_if c e0 = Raise e -> e = e0.
Proof. destruct c; simpl; [intros [= <-]; reflexivity | discriminate]. Qed.

(** Whatever [_check_parameters] raises is a [ValueError] or a
    [TypeError]. *)
Lemma check_parameters_raises_configuration
    objective degree continuous monotonic_trend solver h_epsilon quantile
    verbose e :
  _check_parameters objective degree continuous monotonic_trend solver
                    h_epsilon quantile verbose = Raise e ->
  is_configuration_error e = true.
Proof.
  unfold _check_parameters; intros H.
  apply obind_raise_if_Raise in H as [-> | H]; [reflexivity |].
  apply obind_raise_if_Raise in H as [-> | H]; [reflexivity |].
  apply obind_raise_if_Raise in H as [-> | H]; [reflexivity |].
  apply obind_Raise_inv in H as [H | ([] & _ & H)].
  - destruct (negb (is_none monotonic_trend)); [| discriminate].
    apply obind_raise_if_Raise in H as [-> | H]; [reflexivity |].
    apply obind_raise_if_Raise in H as [-> | H]; [reflexivity |].
    apply raise_if_Raise in H as ->; reflexivity.
  - apply obind_raise_if_Raise in H as [-> | H]; [reflexivity |].
    apply obind_raise_if_Raise in H as [-> | H]; [reflexivity |].
    apply obind_raise_if_Raise in H as [-> | H]; [reflexivity |].
    apply raise_if_Raise in H as ->; reflexivity.
Qed.

(** [fit] starts with the validation of the parameters: when that raises,
    [fit] raises the same exception, whatever the data and the builders. *)
Lemma fit_validation_raises `{Backend} self x y splits lb ub e :
  _check_parameters (objective self) (degree self) (continuous self)
    (monotonic_trend self) (solver self) (h_epsilon self) (quantile self)
    (verbose self) = Raise e ->
  fit x y splits lb ub self = (Raise e, self).
Proof.
  intros Hraise; unfold fit, mbind, get_self, lift.
  now rewrite Hraise.
Qed.

(* ------------------------------------------------------------------ *)
(** ** The method selector *)

(** C1. Every parameter set accepted by [_check_parameters], together with
    either value of [bounded], is mapped by [_choose_method] to the outcome
    that the decision table of section 4.3 gives for it: one of the six
    canonical tags, or a configuration error.  The function never returns
    the [None] of a fall-through. *)
Theorem choose_method_follows_table
    objective degree continuous monotonic_trend solver h_epsilon quantile
    verbose (bounded : bool) :
  _check_parameters objective degree continuous monotonic_trend solver
                    h_epsilon quantile verbose = Return tt ->
  (exists s o c sh,
      solver = solver_value s /\ objective = objective_value o /\
      continuous = PyBool c /\ monotonic_trend = shape_value sh /\
      agrees (method_selector s o c sh bounded)
             (_choose_method objective degree continuous monotonic_trend
                             solver bounded)) /\
  canonical_or_error
    (_choose_method objective degree continuous monotonic_trend solver bounded).
Proof.
  intros Hok.
  destruct (check_parameters_inv _ _ _ _ _ _ _ _ Hok)
    as ([o ->] & [c ->] & [sh ->] & [s ->] & _).
  split.
  - exists s, o, c, sh; repeat split.
    destruct s, o, c, sh as [[]|], bounded; reflexivity.
  - destruct s, o, c, sh as [[]|], bounded; cbn;
      solve [reflexivity | eexists; split; [reflexivity | simpl; tauto]].
Qed.

Lemma choose_method_follows_table_witness :
  agrees (method_selector Auto L2 true (Some Ascending) false)
         (_choose_method (PyStr "l2") (PyInt 3) (PyBool true)
            (PyStr "ascending") (PyStr "auto") false) /\
  canonical_or_error
    (_choose_method (PyStr "l2") (PyInt 3) (PyBool true)
       (PyStr "ascending") (PyStr "auto") false).
Proof.
  destruct (choose_method_follows_table
              (PyStr "l2") (PyInt 3) (PyBool true) (PyStr "ascending")
              (PyStr "auto") (PyFloat f_one) (quantile default_estimator)
              (PyBool false) false eq_refl) as [_ Hcanon].
  split; [reflexivity | exact Hcanon].
Defined.

(** Validation is what excludes the fall-through: for a solver that is not
    one of the four names the function returns [None]. *)
Lemma choose_method_unvalidated_solver :
  _choose_method (PyStr "l2") (PyInt 1) (PyBool true) PyNone (PyStr "cvxopt")
                 false = Return PyNone.
Proof. reflexivity. Qed.




(* ------------------------------------------------------------------ *)
(** ** [fit]: what a call leaves behind *)

Ltac step_fit H :=
  match type of H with
  | context [match ?o with Return _ => _ | Raise _ => _ end] =>
      let E := fresh "E" in
      destruct o eqn:E; cbn beta iota in H
  end.

(** A call of [fit] that raises leaves the instance as it was. *)
Lemma fit_raise_unchanged `{Backend} x y splits lb ub self e self' :
  fit x y splits lb ub self = (Raise e, self') -> self' = self.
Proof.
  unfold fit, mbind, get_self, lift, mret, set_coef_, set_splits, set_is_fitted.
  intros Hfit.
  repeat (step_fit Hfit; [| now inversion Hfit]).
  destruct (negb (is_none lb) || negb (is_none ub));
    repeat (step_fit Hfit; [| now inversion Hfit]); discriminate.
Qed.

(** A call of [fit] that returns has passed every check, and has assigned
    the table that the selected builder returned, together with the
    [splits] argument as the caller gave it. *)
Lemma fit_return_inv `{Backend} x y splits lb ub self self' :
  fit x y splits lb ub self = (Return tt, self') ->
  _check_parameters (objective self) (degree self) (continuous self)
    (monotonic_trend self) (solver self) (h_epsilon self) (quantile self)
    (verbose self) = Return tt /\
  (exists user_splits, _check_splits splits = Return user_splits) /\
  exists _method c,
    _choose_method (objective self) (degree self) (continuous self)
      (monotonic_trend self) (solver self)
      (negb (is_none lb) || negb (is_none ub)) = Return _method /\
    solve self _method (take x (argsort x)) (take y (argsort x)) splits lb ub
    = Return c /\
    self' = fitted_with self c splits.
Proof.
  unfold fit, mbind, get_self, lift, mret, set_coef_, set_splits, set_is_fitted.
  intros Hfit.
  step_fit Hfit; [| discriminate]. destruct a.
  step_fit Hfit; [| discriminate].
  assert (a = x) as ->.
  { unfold check_array in E0.
    apply obind_raise_if_Return in E0 as [_ E0].
    apply obind_raise_if_Return in E0 as [_ E0]. congruence. }
  step_fit Hfit; [| discriminate].
  assert (a = y) as ->.
  { unfold check_array in E1.
    apply obind_raise_if_Return in E1 as [_ E1].
    apply obind_raise_if_Return in E1 as [_ E1]. congruence. }
  step_fit Hfit; [| discriminate].
  step_fit Hfit; [| discriminate].
  split; [reflexivity |]. split; [eauto |].
  destruct (negb (is_none lb) || negb (is_none ub));
    repeat (step_fit Hfit; [| discriminate]);
    injection Hfit as <-;
    do 2 eexists; repeat split; try eassumption; reflexivity.
Qed.

(** C4. A call of [fit] that raises, at whichever step, leaves [coef_],
    [_splits] and [_is_fitted] (and every other attribute) as they were
    before the call; a call that returns has obtained a coefficient table
    from the selected builder, and differs from the instance before the
    call by the three assignments made after the solve. *)
Theorem fit_raises_without_mutation `{Backend} x y splits lb ub self o self' :
  fit x y splits lb ub self = (o, self') ->
  match o with
  | Raise _ =>
      self' = self /\
      coef_ self' = coef_ self /\ _splits self' = _splits self /\
      _is_fitted self' = _is_fitted self
  | Return _ =>
      exists _method c,
        _choose_method (objective self) (degree self) (continuous self)
          (monotonic_trend self) (solver self)
          (negb (is_none lb) || negb (is_none ub)) = Return _method /\
        solve self _method (take x (argsort x)) (take y (argsort x))
              splits lb ub = Return c /\
        self' = fitted_with self c splits
  end.
Proof.
  intros Hfit; destruct o as [[] | e].
  - now apply fit_return_inv in Hfit as (_ & _ & Hsolved).
  - apply fit_raise_unchanged in Hfit; subst; auto.
Qed.

(** An instance fitted on the splits 1 and 3 is fitted again, and the
    solve fails: the table and the splits of the first fit are retained. *)
Lemma fit_raises_without_mutation_witness :
  let fitted := fitted_with default_estimator (staircase [F 1; F 3]) [F 1; F 3] in
  @fit staircase_backend [F 0; F 2] [F 5; F 7] [F 1; F 3] PyNone PyNone
       default_estimator = (Return tt, fitted) /\
  @fit failing_backend [F 0; F 2] [F 5; F 7] [F 2] PyNone PyNone fitted
  = (Raise (SolverError "lsq_direct"), fitted) /\
  coef_ fitted = Some (staircase [F 1; F 3]).
Proof.
  intros fitted.
  assert (Hfail : @fit failing_backend [F 0; F 2] [F 5; F 7] [F 2] PyNone PyNone
                       fitted = (Raise (SolverError "lsq_direct"), fitted))
    by (vm_compute; reflexivity).
  pose proof (@fit_raises_without_mutation failing_backend _ _ _ _ _ _ _ _ Hfail)
    as (_ & Hcoef & _).
  split; [vm_compute; reflexivity |].
  split; [exact Hfail | exact Hcoef].
Defined.

(** C3 fails on the code. [_check_splits] sorts the split points 3, 1 into
    1, 3, but [fit] drops the array it returns: the builder is called with
    the splits in the caller's order (its answer, the echo of its argument,
    shows it) and [_splits] holds them in that order, the larger one
    first. *)
Theorem fit_uses_splits_unsorted :
  _check_splits [F 3; F 1] = Return [F 1; F 3] /\
  @fit echo_backend [F 0; F 2] [F 5; F 7] [F 3; F 1] PyNone PyNone
       default_estimator
  = (Return tt, fitted_with default_estimator [[F 3; F 1]] [F 3; F 1]) /\
  SFltb (F 1) (F 3) = true.
Proof.
  repeat split; vm_compute; reflexivity.
Qed.

(** Every call of [fit] that returns has stored its [splits] argument
    unchanged. *)
Lemma fit_stores_splits_argument `{Backend} x y splits lb ub self self' :
  fit x y splits lb ub self = (Return tt, self') ->
  _splits self' = Some splits.
Proof.
  intros Hfit; apply fit_return_inv in Hfit as (_ & _ & m & c & _ & _ & ->).
  reflexivity.
Qed.

(* ------------------------------------------------------------------ *)
(** ** Shapes and validation *)

(** C8. With [monotonic_trend] "convex" or "concave", and a degree other
    than 1 or [continuous] other than [True], [fit] raises a configuration
    error out of the validation of the parameters: the same error for all
    data, bounds and builders, and the instance is unchanged.  Conversely a
    call of [fit] that returns with such a trend has degree 1 and
    [continuous = True]. *)
Theorem convex_concave_only_linear_continuous self :
  monotonic_trend self = PyStr "convex" \/
  monotonic_trend self = PyStr "concave" ->
  (py_ne (degree self) (PyInt 1) = true \/ continuous self <> PyBool true ->
   exists e,
     is_configuration_error e = true /\
     forall (B : Backend) x y splits lb ub,
       fit x y splits lb ub self = (Raise e, self)) /\
  (forall (B : Backend) x y splits lb ub self',
     fit x y splits lb ub self = (Return tt, self') ->
     py_eq (degree self) (PyInt 1) = true /\ continuous self = PyBool true).
Proof.
  intros Htrend.
  assert (Hin : py_in (monotonic_trend self) [PyStr "convex"; PyStr "concave"]
                = true)
    by (destruct Htrend as [-> | ->]; reflexivity).
  split.
  - intros Hbad.
    destruct (_check_parameters (objective self) (degree self) (continuous self)
                (monotonic_trend self) (solver self) (h_epsilon self)
                (quantile self) (verbose self)) as [[] | e] eqn:Hcheck.
    + apply check_parameters_inv in Hcheck as (_ & _ & _ & _ & Hcc).
      destruct (Hcc Hin) as [Hdeg Hcont].
      destruct Hbad as [Hne | Hne]; [| contradiction].
      unfold py_ne in Hne; rewrite Hdeg in Hne; discriminate.
    + exists e; split.
      * now apply check_parameters_raises_configuration in Hcheck.
      * intros; now apply fit_validation_raises.
  - intros B x y splits lb ub self' Hfit.
    apply fit_return_inv in Hfit as (Hcheck & _).
    apply check_parameters_inv in Hcheck as (_ & _ & _ & _ & Hcc); auto.
Qed.

Lemma convex_concave_only_linear_continuous_witness :
  exists e,
    is_configuration_error e = true /\
    forall (B : Backend) x y splits lb ub,
      fit x y splits lb ub
          (__init__ (PyStr "l2") (PyInt 2) (PyBool true) (PyStr "convex")
                    (PyStr "auto") (PyFloat f_one)
                    (quantile default_estimator) (PyBool false))
      = (Raise e,
         __init__ (PyStr "l2") (PyInt 2) (PyBool true) (PyStr "convex")
                  (PyStr "auto") (PyFloat f_one)
                  (quantile default_estimator) (PyBool false)).
Proof.
  apply (convex_concave_only_linear_continuous
           (__init__ (PyStr "l2") (PyInt 2) (PyBool true) (PyStr "convex")
                     (PyStr "auto") (PyFloat f_one)
                     (quantile default_estimator) (PyBool false))).
  - left; reflexivity.
  - left; reflexivity.
Defined.

(** C10. With [monotonic_trend] "valley" or "peak", [fit] raises a
    configuration error out of the validation of the parameters, for all
    data, bounds and builders; and for the trend of an instance on which
    [fit] returns, [monotonic_trend_constraints] does not build the pair of
    constraints of a two-sided shape. *)
Theorem two_sided_trends_unreachable self :
  (monotonic_trend self = PyStr "valley" \/
   monotonic_trend self = PyStr "peak" ->
   exists e,
     is_configuration_error e = true /\
     forall (B : Backend) x y splits lb ub,
       fit x y splits lb ub self = (Raise e, self)) /\
  (forall (B : Backend) x y splits lb ub self',
     fit x y splits lb ub self = (Return tt, self') ->
     forall (T V : Type) (c : V) (D : matrix T) t k1 k2,
       monotonic_trend_constraints (monotonic_trend self) c D t
       <> TwoConstraints k1 k2).
Proof.
  split.
  - intros Htrend.
    destruct (_check_parameters (objective self) (degree self) (continuous self)
                (monotonic_trend self) (solver self) (h_epsilon self)
                (quantile self) (verbose self)) as [[] | e] eqn:Hcheck.
    + apply check_parameters_inv in Hcheck as (_ & _ & [sh Hsh] & _).
      rewrite Hsh in Htrend.
      destruct sh as [[]|], Htrend; discriminate.
    + exists e; split.
      * now apply check_parameters_raises_configuration in Hcheck.
      * intros; now apply fit_validation_raises.
  - intros B x y splits lb ub self' Hfit T V c D t k1 k2.
    apply fit_return_inv in Hfit as (Hcheck & _).
    apply check_parameters_inv in Hcheck as (_ & _ & [sh ->] & _).
    destruct sh as [[]|]; discriminate.
Qed.

Lemma two_sided_trends_unreachable_witness :
  exists e,
    is_configuration_error e = true /\
    forall (B : Backend) x y splits lb ub,
      fit x y splits lb ub
          (__init__ (PyStr "l2") (PyInt 1) (PyBool true) (PyStr "valley")
                    (PyStr "auto") (PyFloat f_one)
                    (quantile default_estimator) (PyBool false))
      = (Raise e,
         __init__ (PyStr "l2") (PyInt 1) (PyBool true) (PyStr "valley")
                  (PyStr "auto") (PyFloat f_one)
                  (quantile default_estimator) (PyBool false)).
Proof.
  apply (two_sided_trends_unreachable
           (__init__ (PyStr "l2") (PyInt 1) (PyBool true) (PyStr "valley")
                     (PyStr "auto") (PyFloat f_one)
                     (quantile default_estimator) (PyBool false))).
  left; reflexivity.
Defined.

(* ------------------------------------------------------------------ *)
(** ** [predict] before [fit] *)

Lemma never_fitted_flag `{Backend} self :
  never_fitted self -> _is_fitted self = false.
Proof.
  induction 1 as [| self x y splits lb ub e self' _ IH Hfit].
  - reflexivity.
  - apply fit_raise_unchanged in Hfit; now subst.
Qed.

(** C9. On an instance on which no call of [fit] has returned (a new
    instance, possibly after calls of [fit] that raised), [predict] raises
    [NotFittedError] for all arguments. *)
Theorem predict_before_fit_raises `{Backend} self x lb ub :
  never_fitted self ->
  predict self x lb ub = Raise NotFittedError.
Proof.
  intros Hnf; apply never_fitted_flag in Hnf.
  unfold predict; now rewrite Hnf.
Qed.

(** A new instance with the default parameters, after a call of [fit]
    whose solve failed. *)
Lemma predict_before_fit_raises_witness :
  predict (snd (@fit failing_backend [F 0; F 2] [F 5; F 7] [F 1] PyNone PyNone
                     default_estimator))
          [F 0] PyNone (PyFloat (F 1))
  = Raise NotFittedError.
Proof.
  apply (@predict_before_fit_raises failing_backend).
  apply (@nf_fit_raised failing_backend default_estimator
           [F 0; F 2] [F 5; F 7] [F 1] PyNone PyNone
           (SolverError "lsq_direct")).
  - apply nf_init.
  - vm_compute; reflexivity.
Defined.

(* ------------------------------------------------------------------ *)
(** ** Shape constraints *)

Lemma slice_to_from {A} (l : list A) (i : Z) :
  slice_to l (Some i) ++ slice_from l (Some i) = l.
Proof. apply firstn_skipn. Qed.

Lemma slice_bound_in_range (n : nat) (i : Z) :
  0 <= i <= Z.of_nat n -> slice_bound n i = Z.to_nat i.
Proof.
  intros Hi; unfold slice_bound.
  destruct (Z.ltb_spec i 0); lia.
Qed.

(** C7. [monotonic_trend_constraints] returns, for "valley", the pair
    [D[:t] * c <= 0], [D[t:] * c >= 0], and for "peak" the pair
    [D[:t] * c >= 0], [D[t:] * c <= 0]; for "ascending" and "convex" the
    single constraint [D * c >= 0], for "descending" and "concave" the
    single constraint [D * c <= 0].  For an integer pivot the two blocks
    of rows are a partition of [D] in order, and for a pivot between 0 and
    the number of rows the first block has [t] rows. *)
Theorem trend_constraints_by_shape {T V : Type} (c : V) (D : matrix T)
    (t : option Z) :
  monotonic_trend_constraints (PyStr "valley") c D t
  = TwoConstraints (LeZero (MulExpression (slice_to D t) c))
                   (GeZero (MulExpression (slice_from D t) c)) /\
  monotonic_trend_constraints (PyStr "peak") c D t
  = TwoConstraints (GeZero (MulExpression (slice_to D t) c))
                   (LeZero (MulExpression (slice_from D t) c)) /\
  monotonic_trend_constraints (PyStr "ascending") c D t
  = OneConstraint (GeZero (MulExpression D c)) /\
  monotonic_trend_constraints (PyStr "convex") c D t
  = OneConstraint (GeZero (MulExpression D c)) /\
  monotonic_trend_constraints (PyStr "descending") c D t
  = OneConstraint (LeZero (MulExpression D c)) /\
  monotonic_trend_constraints (PyStr "concave") c D t
  = OneConstraint (LeZero (MulExpression D c)) /\
  (forall i : Z,
      slice_to D (Some i) ++ slice_from D (Some i) = D /\
      (0 <= i <= Z.of_nat (List.length D) ->
       List.length (slice_to D (Some i)) = Z.to_nat i)).
Proof.
  repeat (split; [reflexivity |]).
  intros i; split; [apply slice_to_from |].
  intros Hi; unfold slice_to.
  rewrite length_firstn, slice_bound_in_range by assumption. lia.
Qed.

Lemma trend_constraints_by_shape_witness :
  monotonic_trend_constraints (PyStr "valley") "c" [[-1; 1]; [2; 0]; [0; 3]]
                              (Some 1)
  = TwoConstraints (LeZero (MulExpression [[-1; 1]] "c"))
                   (GeZero (MulExpression [[2; 0]; [0; 3]] "c")) /\
  List.length (slice_to [[-1; 1]; [2; 0]; [0; 3]] (Some 1)) = 1%nat.
Proof.
  destruct (@trend_constraints_by_shape Z string "c" [[-1; 1]; [2; 0]; [0; 3]]
              (Some 1)) as (Hvalley & _ & _ & _ & _ & _ & Hrows).
  split; [exact Hvalley |].
  apply (proj2 (Hrows 1)); simpl; lia.
Defined.

(* ------------------------------------------------------------------ *)
(** ** The order of binary64 *)

Ltac fold_pos_compare :=
  repeat match goal with
  | |- context [PosDef.Pos.compare_cont Eq ?m ?n] =>
      change (PosDef.Pos.compare_cont Eq m n) with (Pos.compare m n)
  | H : context [PosDef.Pos.compare_cont Eq ?m ?n] |- _ =>
      change (PosDef.Pos.compare_cont Eq m n) with (Pos.compare m n) in H
  end.

Ltac compare_cases :=
  repeat match goal with
  | |- context [Z.compare ?a ?b] => destruct (Z.compare_spec a b); subst
  | H : context [Z.compare ?a ?b] |- _ => destruct (Z.compare_spec a b); subst
  | |- context [Pos.compare ?a ?b] => destruct (Pos.compare_spec a b); subst
  | H : context [Pos.compare ?a ?b] |- _ => destruct (Pos.compare_spec a b); subst
  end.

Lemma SFcompare_antisym a b :
  SFcompare b a = option_map CompOpp (SFcompare a b).
Proof.
  destruct a as [[]|[]| |[] ma ea], b as [[]|[]| |[] mb eb]; simpl;
    try reflexivity; fold_pos_compare;
    rewrite (Z.compare_antisym ea eb), (Pos.compare_antisym ma mb);
    destruct (ea ?= eb), (ma ?= mb)%positive; reflexivity.
Qed.

Lemma SFcompare_None a b :
  SFcompare a b = None <-> is_nan a = true \/ is_nan b = true.
Proof.
  destruct a as [[]|[]| |[] ma ea], b as [[]|[]| |[] mb eb]; simpl;
    intuition discriminate.
Qed.

Lemma SFcompare_Some a b r :
  SFcompare a b = Some r -> is_nan a = false /\ is_nan b = false.
Proof.
  destruct a as [[]|[]| |[] ma ea], b as [[]|[]| |[] mb eb]; simpl;
    intuition discriminate.
Qed.

Lemma SFcompare_refl a : is_nan a = false -> SFcompare a a = Some Eq.
Proof.
  destruct a as [[]|[]| |[] ma ea]; simpl; try reflexivity; try discriminate;
    intros _; fold_pos_compare;
    rewrite Z.compare_refl, Pos.compare_refl; reflexivity.
Qed.

(** Equal floats compare alike with a third one. *)
Lemma SFcompare_Eq_l a b c r :
  SFcompare a b = Some Eq -> SFcompare b c = Some r -> SFcompare a c = Some r.
Proof.
  destruct a as [[]|[]| |[] ma ea], b as [[]|[]| |[] mb eb],
           c as [[]|[]| |[] mc ec];
    simpl; try congruence; fold_pos_compare; intros H1 H2;
    injection H1 as H1; injection H2 as H2; f_equal; subst r;
    compare_cases; simpl in *; try congruence; try lia.
Qed.

Lemma SFcompare_trans a b c r :
  SFcompare a b = Some r -> SFcompare b c = Some r -> SFcompare a c = Some r.
Proof.
  destruct a as [[]|[]| |[] ma ea], b as [[]|[]| |[] mb eb],
           c as [[]|[]| |[] mc ec];
    simpl; try congruence; fold_pos_compare; intros H1 H2;
    injection H1 as H1; injection H2 as H2; f_equal; subst r;
    compare_cases; simpl in *; try congruence; try lia.
Qed.

Lemma SFltb_Lt a b : SFltb a b = true <-> SFcompare a b = Some Lt.
Proof.
  unfold SFltb; destruct (SFcompare a b) as [[]|]; intuition congruence.
Qed.

Lemma SFeqb_Eq a b : SFeqb a b = true <-> SFcompare a b = Some Eq.
Proof.
  unfold SFeqb; destruct (SFcompare a b) as [[]|]; intuition congruence.
Qed.

Lemma SFltb_not_nan a b :
  SFltb a b = true -> is_nan a = false /\ is_nan b = false.
Proof.
  destruct a as [[]|[]| |[] ma ea], b as [[]|[]| |[] mb eb]; simpl;
    intuition discriminate.
Qed.

Lemma SFleb_not_nan a b :
  SFleb a b = true -> is_nan a = false /\ is_nan b = false.
Proof.
  destruct a as [[]|[]| |[] ma ea], b as [[]|[]| |[] mb eb]; simpl;
    intuition discriminate.
Qed.



(** Two numbers that are not NaN are comparable. *)
Lemma SFltb_false_leb a b :
  is_nan a = false -> is_nan b = false ->
  SFltb a b = false -> SFleb b a = true.
Proof.
  intros Ha Hb; unfold SFltb, SFleb; rewrite (SFcompare_antisym a b).
  destruct (SFcompare a b) as [[]|] eqn:Hc; simpl; try congruence.
  apply SFcompare_None in Hc as [Hc | Hc]; congruence.
Qed.

Lemma SFltb_trans a b c :
  SFltb a b = true -> SFltb b c = true -> SFltb a c = true.
Proof. rewrite !SFltb_Lt; apply SFcompare_trans. Qed.

Lemma SFltb_asym a b : SFltb a b = true -> SFltb b a = false.
Proof.
  rewrite SFltb_Lt; intros H; unfold SFltb.
  now rewrite (SFcompare_antisym a b), H.
Qed.

Lemma SFltb_not_eqb a b : SFltb a b = true -> SFeqb b a = false.
Proof.
  rewrite SFltb_Lt; intros H; unfold SFeqb.
  now rewrite (SFcompare_antisym a b), H.
Qed.

(* ------------------------------------------------------------------ *)
(** ** Clipping *)





Lemma Forall2_map_self {A B} (P : A -> B -> Prop) (f : A -> B) (l : list A) :
  (forall a, P a (f a)) -> Forall2 P l (map f l).
Proof. intros HP; induction l; simpl; constructor; auto. Qed.

Lemma Forall2_diag {A} (P : A -> A -> Prop) (l : list A) :
  (forall a, P a a) -> Forall2 P l l.
Proof. intros HP; induction l; constructor; auto. Qed.

(* ------------------------------------------------------------------ *)
(** ** [predict]: clipping *)

(** The steps of a call of [predict] that returns.  [raw] is the array of
    predictions before clipping. *)
Lemma predict_return_inv self x lb ub pred :
  predict self x lb ub = Return pred ->
  exists splits indices raw,
    _is_fitted self = true /\
    _splits self = Some splits /\
    digitize x splits = Return indices /\
    predict_loop (coef_ self) x indices (seq 0 (List.length splits + 1))
                 (zeros (List.length x)) = Return raw /\
    (if negb (is_none lb) || negb (is_none ub)
     then _check_bounds lb ub = Return tt /\ np_clip raw lb ub = Return pred
     else pred = raw).
Proof.
  unfold predict; intros H.
  apply obind_raise_if_Return in H as [Hfitted H].
  apply negb_false_iff in Hfitted.
  apply obind_Return_inv in H as ([] & Hbounds & H).
  apply obind_Return_inv in H as (splits & Hsplits & H).
  apply obind_Return_inv in H as (indices & Hindices & H).
  apply obind_Return_inv in H as (raw & Hraw & H).
  exists splits, indices, raw.
  destruct (_splits self) as [s|]; [| discriminate].
  injection Hsplits as ->.
  repeat (split; [assumption || reflexivity |]).
  destruct (negb (is_none lb) || negb (is_none ub)); [auto | congruence].
Qed.

(** The same call without bounds returns the predictions before
    clipping. *)
Lemma predict_unbounded self x splits indices raw :
  _is_fitted self = true ->
  _splits self = Some splits ->
  digitize x splits = Return indices ->
  predict_loop (coef_ self) x indices (seq 0 (List.length splits + 1))
               (zeros (List.length x)) = Return raw ->
  predict self x PyNone PyNone = Return raw.
Proof.
  intros Hfitted Hsplits Hindices Hraw; unfold predict.
  rewrite Hfitted, Hsplits; cbn.
  rewrite Hindices; cbn. rewrite Hraw; reflexivity.
Qed.

(* ------------------------------------------------------------------ *)
(** ** binary64: the integers that are represented *)













(** Integers that float64 represents, up to [2**53] and beyond, and the
    first one that it does not. *)
Lemma exact_int_examples :
  forallb exact_int [0; 1; -1; 12; 15; 2 ^ 53; - 2 ^ 53; 2 ^ 53 + 2; 2 ^ 60]
  = true /\
  exact_int (2 ^ 53 + 1) = false.
Proof. split; vm_compute; reflexivity. Qed.








Lemma check_bounds_floats lo hi :
  _check_bounds (PyFloat lo) (PyFloat hi) = Return tt -> SFltb hi lo = false.
Proof.
  unfold _check_bounds; cbn.
  change (py_gt (PyFloat lo) (PyFloat hi)) with (SFltb hi lo).
  destruct (SFltb hi lo); [discriminate | reflexivity].
Qed.




(* ------------------------------------------------------------------ *)
(** ** [predict]: the segment of a sample *)

Lemma SFcompare_Eq_r a b c r :
  SFcompare a b = Some r -> SFcompare b c = Some Eq -> SFcompare a c = Some r.
Proof.
  intros Hab Hbc.
  assert (Hcb : SFcompare c b = Some Eq)
    by (rewrite (SFcompare_antisym b c), Hbc; reflexivity).
  assert (Hba : SFcompare b a = Some (CompOpp r))
    by (rewrite (SFcompare_antisym a b), Hab; reflexivity).
  rewrite (SFcompare_antisym c a), (SFcompare_Eq_l c b a _ Hcb Hba); simpl.
  now rewrite CompOpp_involutive.
Qed.

Lemma npy_lt_SFltb v h s :
  npy_lt v h = true -> SFltb h s = true -> npy_lt v s = true.
Proof.
  unfold npy_lt; intros Hvh Hhs.
  apply orb_true_iff in Hvh as [Hvh | Hnan].
  - now rewrite (SFltb_trans _ _ _ Hvh Hhs).
  - apply SFltb_not_nan in Hhs as [Hh _].
    apply andb_true_iff in Hnan as [Hnan _]; congruence.
Qed.

Lemma ascending_tail h t : ascending (h :: t) -> ascending t.
Proof. intros H; now inversion H. Qed.

Lemma ascending_head_below h t :
  ascending (h :: t) -> Forall (fun s => SFltb h s = true) t.
Proof.
  apply Sorted_extends.
  intros a b c; apply SFltb_trans.
Qed.

Lemma never_descends_ascending h t :
  ascending (h :: t) -> never_descends h t = true.
Proof.
  revert h; induction t as [| c t IH]; intros h Hs; [reflexivity |].
  simpl. inversion Hs as [| ? ? Ht Hhd]; subst.
  inversion Hhd as [| ? ? Hlt]; subst.
  rewrite (SFltb_asym _ _ Hlt); auto.
Qed.

(** Ascending split points are what [digitize] takes for increasing
    bins. *)
Lemma check_array_monotonic_ascending splits :
  ascending splits -> check_array_monotonic splits = 1.
Proof.
  destruct splits as [| a [| b t]]; intros Hs; try reflexivity.
  inversion Hs as [| ? ? Ht Hhd]; subst.
  inversion Hhd as [| ? ? Hlt]; subst.
  unfold check_array_monotonic; cbn [skip_repeated].
  rewrite (SFltb_not_eqb _ _ Hlt), Hlt.
  now rewrite never_descends_ascending.
Qed.

Lemma digitize_ascending x splits :
  ascending splits ->
  digitize x splits = Return (map (searchsorted_right splits) x).
Proof.
  intros Hs; unfold digitize.
  rewrite (check_array_monotonic_ascending _ Hs); reflexivity.
Qed.

(** The index that [searchsorted] returns is the right-open bin. *)
Lemma searchsorted_right_in_segment splits v :
  in_segment splits v (searchsorted_right splits v).
Proof.
  induction splits as [| h t (Hlen & Hup & Hlow)]; simpl.
  - repeat split; [lia | discriminate | intros; lia].
  - destruct (npy_lt v h) eqn:Hvh.
    + repeat split; [lia | now intros s [= <-] | intros; lia].
    + repeat split; [simpl; lia | exact Hup |].
      intros [| j] s Hj; simpl; [now intros [= <-] |].
      apply Hlow; lia.
Qed.

(** Below the first split point: segment 0. *)
Lemma searchsorted_right_below_first s0 t v :
  SFltb v s0 = true -> searchsorted_right (s0 :: t) v = 0%nat.
Proof.
  intros Hlt; simpl; unfold npy_lt; now rewrite Hlt.
Qed.

(** On a split point: the segment that begins there. *)
Lemma searchsorted_right_on_split splits j s v :
  ascending splits ->
  nth_error splits j = Some s -> SFeqb v s = true ->
  searchsorted_right splits v = S j.
Proof.
  revert j; induction splits as [| h t IH]; intros j Hs Hj Heq.
  - destruct j; discriminate.
  - apply SFeqb_Eq in Heq.
    destruct (SFcompare_Some _ _ _ Heq) as [Hv Hns].
    destruct j as [| j]; simpl in Hj |- *.
    + injection Hj as ->.
      assert (Hvs : npy_lt v s = false).
      { unfold npy_lt, SFltb; rewrite Heq, Hns; reflexivity. }
      rewrite Hvs; f_equal.
      destruct t as [| h2 t']; [reflexivity |].
      inversion Hs as [| ? ? _ Hhd]; subst.
      inversion Hhd as [| ? ? Hlt]; subst.
      apply searchsorted_right_below_first.
      apply SFltb_Lt in Hlt; apply SFltb_Lt; eauto using SFcompare_Eq_l.
    + assert (Hhs : SFltb h s = true).
      { pose proof (ascending_head_below _ _ Hs) as Hall.
        rewrite Forall_forall in Hall.
        apply Hall; eauto using nth_error_In. }
      assert (Hhv : SFltb h v = true).
      { apply SFltb_Lt in Hhs; apply SFltb_Lt.
        apply (SFcompare_Eq_r h s v); [assumption |].
        rewrite (SFcompare_antisym v s), Heq; reflexivity. }
      assert (Hvh : npy_lt v h = false).
      { unfold npy_lt; rewrite (SFltb_asym _ _ Hhv).
        apply SFltb_not_nan in Hhv as [-> _]; reflexivity. }
      rewrite Hvh; f_equal.
      apply IH; eauto using ascending_tail.
      now apply SFeqb_Eq.
Qed.

(** With ascending split points, every sample is given the index of the
    right-open segment that holds it. *)
Lemma digitize_right_open x splits :
  ascending splits ->
  exists indices,
    digitize x splits = Return indices /\
    Forall2 (in_segment splits) x indices.
Proof.
  intros Hs; exists (map (searchsorted_right splits) x); split.
  - now apply digitize_ascending.
  - apply Forall2_map_self, searchsorted_right_in_segment.
Qed.

(** C5 fails on the code, for split points that the caller of [fit] did
    not sort ([fit] stores them as given).  With the splits 3, 1, the
    sample 2, which is below the first stored split, is put in segment 1 and
    gets the value of the second row of the table; with the splits 1, 3, 2,
    [digitize] raises and no sample gets a segment. *)
Theorem predict_bins_by_stored_splits :
  let descending := snd (@fit staircase_backend [F 0; F 2] [F 5; F 7]
                              [F 3; F 1] PyNone PyNone default_estimator) in
  let unordered := snd (@fit staircase_backend [F 0; F 2] [F 5; F 7]
                             [F 1; F 3; F 2] PyNone PyNone default_estimator) in
  _is_fitted descending = true /\ _splits descending = Some [F 3; F 1] /\
  SFltb (F 2) (F 3) = true /\
  digitize [F 2] [F 3; F 1] = Return [1%nat] /\
  predict descending [F 2] PyNone PyNone = Return [F 20] /\
  _is_fitted unordered = true /\ _splits unordered = Some [F 1; F 3; F 2] /\
  predict unordered [F 2] PyNone PyNone
  = Raise (ValueError "bins must be monotonic").
Proof.
  cbv zeta; repeat split; vm_compute; reflexivity.
Qed.

(* ------------------------------------------------------------------ *)
(** ** [predict]: the polynomial of the segment *)

Lemma combine_map_combine {A B C} (g : A * B -> C) (l : list A) (l' : list B) :
  combine (map g (combine l l')) l'
  = map (fun ab => (g ab, snd ab)) (combine l l').
Proof.
  revert l'; induction l as [| a l IH]; intros [| b l']; simpl;
    try reflexivity.
  now rewrite IH.
Qed.

Lemma map_fst_combine_same {A B} (l : list A) (l' : list B) :
  List.length l = List.length l' -> map fst (combine l l') = l.
Proof.
  revert l'; induction l as [| a l IH]; intros [| b l']; simpl;
    try reflexivity; try discriminate.
  intros [= Hlen]; now rewrite IH.
Qed.

Lemma polyval_from (p : array) (ys x : array) :
  fold_left
    (fun y pv => map (fun yx => fadd (fmul (fst yx) (snd yx)) pv) (combine y x))
    p ys
  = match p with
    | [] => ys
    | _ => map (fun yx => fold_left (fun y pv => fadd (fmul y (snd yx)) pv)
                                    p (fst yx))
               (combine ys x)
    end.
Proof.
  revert ys; induction p as [| pv p IH]; intros ys; [reflexivity |].
  cbn [fold_left]; rewrite IH.
  destruct p as [| pv' p]; [reflexivity |].
  rewrite combine_map_combine, map_map; reflexivity.
Qed.

(** [polyval] evaluates the polynomial at each element by Horner's
    rule. *)
Lemma polyval_horner (p x : array) : polyval p x = map (horner p) x.
Proof.
  unfold polyval; rewrite polyval_from.
  destruct p as [| pv p].
  - unfold zeros, horner; induction x as [| v x IH];
      cbn [List.length repeat map]; [reflexivity | now rewrite IH].
  - unfold zeros, horner; induction x as [| v x IH];
      cbn [List.length repeat combine map fst snd];
      [reflexivity | now rewrite IH].
Qed.

Lemma mask_assign_select (g : spec_float -> spec_float) (i : nat)
    (pred : array) (indices : list nat) (x : array) :
  List.length indices = List.length x -> List.length pred = List.length x ->
  mask_assign pred (map (Nat.eqb i) indices)
              (map g (mask_select x (map (Nat.eqb i) indices)))
  = map (fun pkv => if Nat.eqb i (fst (snd pkv)) then g (snd (snd pkv))
                    else fst pkv)
        (combine pred (combine indices x)).
Proof.
  revert indices x; induction pred as [| p pred IH];
    intros [| k indices] [| v x]; simpl; try discriminate; try reflexivity.
  intros [= Hi] [= Hp].
  destruct (Nat.eqb i k); simpl; now rewrite IH.
Qed.

Lemma predict_loop_values coef x indices bins pred :
  List.length indices = List.length x -> List.length pred = List.length x ->
  (forall i, In i bins -> (i < List.length coef)%nat) ->
  predict_loop (Some coef) x indices bins pred
  = Return (map (loop_value coef bins) (combine pred (combine indices x))).
Proof.
  intros Hi; revert pred; induction bins as [| i bins IH]; intros pred Hp Hrows.
  - simpl; f_equal. unfold loop_value; cbn [existsb].
    change (fun pkv : spec_float * (nat * spec_float) => fst pkv)
      with (@fst spec_float (nat * spec_float)).
    rewrite map_fst_combine_same; [reflexivity |].
    rewrite length_combine; lia.
  - cbn [predict_loop coef_row].
    destruct (nth_error coef i) as [row |] eqn:Hrow.
    2:{ apply nth_error_None in Hrow.
        specialize (Hrows i (or_introl eq_refl)); lia. }
    cbn [obind].
    rewrite polyval_horner, mask_assign_select by assumption.
    rewrite IH.
    + rewrite combine_map_combine, map_map; f_equal.
      apply map_ext_in; intros [p [k v]] _.
      unfold loop_value; cbn [fst snd existsb].
      destruct (Nat.eqb i k) eqn:Hik; cbn [orb].
      * apply Nat.eqb_eq in Hik; subst k; rewrite Hrow.
        destruct (existsb (fun i0 => Nat.eqb i0 i) bins); reflexivity.
      * destruct (existsb (fun i0 => Nat.eqb i0 k) bins) eqn:Hex;
          reflexivity.
    + rewrite length_map, !length_combine; lia.
    + intros j Hj; apply Hrows; now right.
Qed.

(** With ascending split points and a table with a row per segment, the
    prediction for a sample is the polynomial of its right-open segment,
    evaluated at the sample by Horner's rule. *)
Lemma predict_evaluates_segment self x splits coef :
  _is_fitted self = true ->
  _splits self = Some splits -> coef_ self = Some coef ->
  ascending splits ->
  (List.length splits + 1 <= List.length coef)%nat ->
  predict self x PyNone PyNone
  = Return (map (fun v =>
                   horner (rev (nth (searchsorted_right splits v) coef [])) v)
                x).
Proof.
  intros Hfitted Hsplits Hcoef Hasc Hrows.
  apply (predict_unbounded self x splits (map (searchsorted_right splits) x));
    auto using digitize_ascending.
  rewrite Hcoef, predict_loop_values.
  - apply (f_equal Return). unfold zeros.
    induction x as [| v x IH]; [reflexivity |].
    cbn [List.length repeat map combine]; rewrite IH; f_equal.
    unfold loop_value; cbn [fst snd].
    destruct (searchsorted_right_in_segment splits v) as [Hk _].
    assert (Hex : existsb (fun i => Nat.eqb i (searchsorted_right splits v))
                          (seq 0 (List.length splits + 1)) = true).
    { apply existsb_exists; exists (searchsorted_right splits v); split.
      - apply in_seq; lia.
      - apply Nat.eqb_refl. }
    rewrite Hex.
    destruct (nth_error coef (searchsorted_right splits v)) as [row |] eqn:Hrow.
    + now rewrite (nth_error_nth _ _ _ Hrow).
    + apply nth_error_None in Hrow; lia.
  - now rewrite length_map.
  - unfold zeros; now rewrite repeat_length.
  - intros i Hin; apply in_seq in Hin; lia.
Qed.

(* ------------------------------------------------------------------ *)
(** ** [_check_splits] sorts *)

Lemma npy_lt_asym v w : npy_lt w v = true -> npy_lt v w = false.
Proof.
  unfold npy_lt; intros H; apply orb_true_iff in H as [Hlt | Hnan].
  - rewrite (SFltb_asym _ _ Hlt).
    apply SFltb_not_nan in Hlt as [-> _]; reflexivity.
  - apply andb_true_iff in Hnan as [Hv Hw].
    destruct v; try discriminate. destruct w; try discriminate; reflexivity.
Qed.

Lemma argsort_insert_sorted i v l :
  non_descending (map snd l) -> non_descending (map snd (argsort_insert i v l)).
Proof.
  unfold non_descending.
  induction l as [| [j w] t IH]; intros Hs; simpl.
  - repeat constructor.
  - destruct (npy_lt w v) eqn:Hwv; simpl.
    + inversion Hs as [| ? ? Ht Hhd]; subst.
      constructor; [auto |].
      destruct t as [| [k u] t']; simpl.
      * constructor; now apply npy_lt_asym.
      * destruct (npy_lt u v); simpl; constructor.
        -- now inversion Hhd.
        -- now apply npy_lt_asym.
    + constructor; [assumption | now constructor].
Qed.

Lemma argsort_pairs_sorted (ps : list (nat * spec_float)) :
  non_descending
    (map snd (fold_right (fun iv acc => argsort_insert (fst iv) (snd iv) acc)
                         [] ps)).
Proof.
  induction ps as [| [i v] ps IH]; simpl.
  - constructor.
  - now apply argsort_insert_sorted.
Qed.

Lemma argsort_insert_Forall (P : nat * spec_float -> Prop) i v l :
  P (i, v) -> Forall P l -> Forall P (argsort_insert i v l).
Proof.
  intros Piv; induction l as [| [j w] t IH]; intros Hl; simpl.
  - now constructor.
  - inversion Hl; subst.
    destruct (npy_lt w v); constructor; auto.
Qed.

Lemma argsort_pairs_Forall (P : nat * spec_float -> Prop) ps :
  Forall P ps ->
  Forall P (fold_right (fun iv acc => argsort_insert (fst iv) (snd iv) acc)
                       [] ps).
Proof.
  induction 1 as [| [i v] ps Hiv _ IH]; simpl.
  - constructor.
  - now apply argsort_insert_Forall.
Qed.

Lemma enumerate_nth (pre t : array) :
  Forall (fun iv => nth (fst iv) (pre ++ t) S754_nan = snd iv)
         (combine (seq (List.length pre) (List.length t)) t).
Proof.
  revert pre; induction t as [| v t IH]; intros pre; simpl.
  - constructor.
  - constructor.
    + simpl; now rewrite nth_middle.
    + specialize (IH (pre ++ [v])).
      rewrite <- app_assoc, length_app in IH; simpl in IH.
      now rewrite Nat.add_1_r in IH.
Qed.

Lemma take_pairs (a : array) (ps : list (nat * spec_float)) :
  Forall (fun iv => nth (fst iv) a S754_nan = snd iv) ps ->
  take a (map fst ps) = map snd ps.
Proof.
  unfold take; induction 1 as [| [i v] ps Hiv _ IH]; simpl.
  - reflexivity.
  - simpl in Hiv; now rewrite Hiv, IH.
Qed.

(** [a[np.argsort(a)]] is in order. *)
Lemma take_argsort_sorted (a : array) : non_descending (take a (argsort a)).
Proof.
  unfold argsort; rewrite take_pairs.
  - apply argsort_pairs_sorted.
  - apply argsort_pairs_Forall, (enumerate_nth [] a).
Qed.

(** The array that [_check_splits] returns (and that [fit] does not use)
    is sorted. *)
Lemma check_splits_returns_sorted splits user_splits :
  _check_splits splits = Return user_splits -> non_descending user_splits.
Proof.
  unfold _check_splits, check_array; intros H.
  apply obind_Return_inv in H as (a & Ha & H).
  apply obind_raise_if_Return in Ha as [_ Ha].
  apply obind_raise_if_Return in Ha as [_ [= <-]].
  apply obind_raise_if_Return in H as [_ [= <-]].
  apply take_argsort_sorted.
Qed.

(** An integer bound is rounded to binary64 before [np.clip] compares:
    the float that stands for [2**53 + 1] is below it, and so is the
    prediction clipped to it. *)
Lemma int_bound_is_rounded :
  to_float64 (PyInt (2 ^ 53 + 1)) = Return (F (2 ^ 53)) /\
  predict (fitted_with default_estimator (staircase [F 1]) [F 1])
          [F 0] (PyInt (2 ^ 53 + 1)) PyNone = Return [F (2 ^ 53)] /\
  py_lt (PyFloat (F (2 ^ 53))) (PyInt (2 ^ 53 + 1)) = true.
Proof. repeat split; vm_compute; reflexivity. Qed.

(* ================================================================== *)
(** * Further properties of the code *)
(* ================================================================== *)

(* ------------------------------------------------------------------ *)
(** ** [_check_parameters] *)

Lemma py_le_ints a b : py_le (PyInt a) (PyInt b) = (a <=? b).
Proof.
  unfold py_le, py_compare, Z.leb; simpl.
  destruct (a ?= b); reflexivity.
Qed.

Lemma as_number_integral d z :
  as_number d = Some (NInt z) ->
  isinstance_Integral d = true /\
  py_le (PyInt 0) d = (0 <=? z) /\ py_le d (PyInt 5) = (z <=? 5) /\
  py_eq d (PyInt 1) = (z =? 1).
Proof.
  destruct d; simpl; try discriminate; intros [= <-].
  - repeat split; try (destruct b; reflexivity).
  - repeat split; try apply py_le_ints.
    unfold py_eq, py_compare; simpl.
    destruct (Z.compare_spec z0 1), (Z.eqb_spec z0 1); try reflexivity; lia.
Qed.

Lemma integral_as_number d :
  isinstance_Integral d = true -> exists z, as_number d = Some (NInt z).
Proof. destruct d; simpl; try discriminate; eauto. Qed.

(** [_check_parameters] returns exactly for: an objective among the
    four names; a degree that is an [int] (or [bool]) with value 0 to 5; a
    [bool] for [continuous]; a trend that is [None] or one of the four
    names, where "convex" and "concave" need the degree to equal 1 and
    [continuous] to be [True]; a solver among the four names; a number
    [h_epsilon] for which [h_epsilon < 1.0] is false; a number [quantile]
    with [0.0 < quantile < 1.0]; a [bool] for [verbose]. *)
Lemma check_parameters_spec
    objective degree continuous monotonic_trend solver h_epsilon quantile
    verbose :
  _check_parameters objective degree continuous monotonic_trend solver
                    h_epsilon quantile verbose = Return tt <->
  (exists o, objective = objective_value o) /\
  (exists z, as_number degree = Some (NInt z) /\ 0 <= z <= 5) /\
  (exists c, continuous = PyBool c) /\
  (exists sh, monotonic_trend = shape_value sh /\
     (sh = Some Convex \/ sh = Some Concave ->
      as_number degree = Some (NInt 1) /\ continuous = PyBool true)) /\
  (exists s, solver = solver_value s) /\
  (isinstance_Number h_epsilon = true /\
   py_lt h_epsilon (PyFloat f_one) = false) /\
  (isinstance_Number quantile = true /\
   py_lt (PyFloat f_zero) quantile = true /\
   py_lt quantile (PyFloat f_one) = true) /\
  (exists v, verbose = PyBool v).
Proof.
  split.
  - intros Hok.
    destruct (check_parameters_inv _ _ _ _ _ _ _ _ Hok)
      as (Ho & Hc & [sh Hsh] & Hs & Hcc).
    unfold _check_parameters in Hok.
    apply obind_raise_if_Return in Hok as [_ Hok].
    apply obind_raise_if_Return in Hok as [Hdeg Hok].
    apply obind_raise_if_Return in Hok as [_ Hok].
    apply obind_Return_inv in Hok as ([] & _ & Hok).
    apply obind_raise_if_Return in Hok as [_ Hok].
    apply obind_raise_if_Return in Hok as [Hh Hok].
    apply obind_raise_if_Return in Hok as [Hq Hv].
    apply orb_false_iff in Hdeg as [Hint Hrange].
    apply negb_false_iff in Hint, Hrange.
    apply andb_true_iff in Hrange as [Hlo Hhi].
    destruct (integral_as_number _ Hint) as [z Hz].
    destruct (as_number_integral _ _ Hz) as (_ & Elo & Ehi & Eone).
    rewrite Elo in Hlo; rewrite Ehi in Hhi.
    apply orb_false_iff in Hh as [Hhn Hhlt]; apply negb_false_iff in Hhn.
    apply orb_false_iff in Hq as [Hqn Hqr].
    apply negb_false_iff in Hqn, Hqr; apply andb_true_iff in Hqr as [Hq0 Hq1].
    unfold raise_if in Hv.
    destruct (isinstance_bool verbose) eqn:Hvb; [| discriminate].
    split; [assumption |].
    split; [exists z; split; [assumption | lia] |].
    split; [assumption |].
    split.
    { exists sh; split; [assumption |].
      intros Hsh'; destruct Hcc as [Hone Hcont].
      - rewrite Hsh; destruct Hsh' as [-> | ->]; reflexivity.
      - split; [| assumption].
        rewrite Eone in Hone; apply Z.eqb_eq in Hone; now subst. }
    split; [assumption |].
    split; [now split |].
    split; [now repeat split |].
    now apply isinstance_bool_true.
  - intros ([o ->] & (z & Hz & Hrange) & [c ->] & (sh & -> & Hcc) & [s ->]
            & [Hhn Hhlt] & (Hqn & Hq0 & Hq1) & [v ->]).
    destruct (as_number_integral _ _ Hz) as (Hint & Elo & Ehi & Eone).
    unfold _check_parameters, raise_if.
    assert (Ho : py_in (objective_value o)
                   [PyStr "l1"; PyStr "l2"; PyStr "huber"; PyStr "quantile"]
                 = true) by (destruct o; reflexivity).
    assert (Hs : py_in (solver_value s)
                   [PyStr "auto"; PyStr "ecos"; PyStr "osqp"; PyStr "direct"]
                 = true) by (destruct s; reflexivity).
    rewrite Ho, Hs, Hint, Elo, Ehi, Hhn, Hhlt, Hqn, Hq0, Hq1.
    replace (0 <=? z) with true by (symmetry; apply Z.leb_le; lia).
    replace (z <=? 5) with true by (symmetry; apply Z.leb_le; lia).
    cbn [negb orb andb obind isinstance_bool].
    destruct sh as [[] |]; cbn; try reflexivity;
      destruct Hcc as [Hone [= ->]]; auto;
      unfold py_ne; rewrite (proj2 (proj2 (proj2 (as_number_integral _ _ Hone))));
      reflexivity.
Qed.

(** X1. [_check_parameters] returns exactly for the parameter sets that
    [check_parameters_spec] lists: names among the allowed ones, an integer
    degree from 0 to 5, booleans for [continuous] and [verbose], degree 1
    and [continuous = True] with a convex or concave trend, a number
    [h_epsilon] not below 1.0 and a number [quantile] strictly between 0.0
    and 1.0. *)
Theorem check_parameters_accepts_iff
    objective degree continuous monotonic_trend solver h_epsilon quantile
    verbose :
  _check_parameters objective degree continuous monotonic_trend solver
                    h_epsilon quantile verbose = Return tt <->
  (exists o, objective = objective_value o) /\
  (exists z, as_number degree = Some (NInt z) /\ 0 <= z <= 5) /\
  (exists c, continuous = PyBool c) /\
  (exists sh, monotonic_trend = shape_value sh /\
     (sh = Some Convex \/ sh = Some Concave ->
      as_number degree = Some (NInt 1) /\ continuous = PyBool true)) /\
  (exists s, solver = solver_value s) /\
  (isinstance_Number h_epsilon = true /\
   py_lt h_epsilon (PyFloat f_one) = false) /\
  (isinstance_Number quantile = true /\
   py_lt (PyFloat f_zero) quantile = true /\
   py_lt quantile (PyFloat f_one) = true) /\
  (exists v, verbose = PyBool v).
Proof. apply check_parameters_spec. Qed.

(** A boolean degree counts as 0 or 1: [True] is accepted with a convex
    trend. *)
Lemma check_parameters_accepts_iff_witness :
  _check_parameters (PyStr "huber") (PyBool true) (PyBool true)
    (PyStr "convex") (PyStr "ecos") (PyInt 2)
    (PyFloat (S754_finite false 4503599627370496 (-53))) (PyBool false)
  = Return tt.
Proof.
  apply (proj2 (check_parameters_accepts_iff
                  (PyStr "huber") (PyBool true) (PyBool true)
                  (PyStr "convex") (PyStr "ecos") (PyInt 2)
                  (PyFloat (S754_finite false 4503599627370496 (-53)))
                  (PyBool false))).
  split; [exists Huber; reflexivity |].
  split; [exists 1; split; [reflexivity | lia] |].
  split; [exists true; reflexivity |].
  split; [exists (Some Convex); split; [reflexivity | intros _; split; reflexivity] |].
  split; [exists Ecos; reflexivity |].
  split; [split; reflexivity |].
  split; [repeat split; reflexivity |].
  exists false; reflexivity.
Defined.

(** X2. The two numeric parameters are tested for every objective, used
    or not, and their limits differ: [h_epsilon] may be 1.0, and NaN
    passes as 1.0 does (only [h_epsilon < 1.0] is tested); [quantile] may be
    neither 0.0 nor 1.0 nor NaN. *)
Theorem numeric_parameter_limits
    objective degree continuous monotonic_trend solver h_epsilon quantile
    verbose :
  _check_parameters objective degree continuous monotonic_trend solver
                    (PyFloat S754_nan) quantile verbose
  = _check_parameters objective degree continuous monotonic_trend solver
                      (PyFloat f_one) quantile verbose /\
  (py_lt h_epsilon (PyFloat f_one) = true \/
   quantile = PyFloat f_zero \/ quantile = PyFloat f_one \/
   quantile = PyFloat S754_nan ->
   _check_parameters objective degree continuous monotonic_trend solver
                     h_epsilon quantile verbose <> Return tt).
Proof.
  split; [reflexivity |].
  intros Hbad Hok.
  apply check_parameters_spec in Hok
    as (_ & _ & _ & _ & _ & [_ Hh] & (_ & Hq0 & Hq1) & _).
  destruct Hbad as [Hlt | [-> | [-> | ->]]]; try congruence; discriminate.
Qed.

Lemma numeric_parameter_limits_witness :
  _check_parameters (PyStr "l2") (PyInt 1) (PyBool true) PyNone (PyStr "auto")
    (PyFloat (S754_finite false 4503599627370496 (-53)))
    (PyFloat (S754_finite false 4503599627370496 (-53))) (PyBool false)
  <> Return tt.
Proof.
  apply (numeric_parameter_limits (PyStr "l2") (PyInt 1) (PyBool true) PyNone
           (PyStr "auto")
           (PyFloat (S754_finite false 4503599627370496 (-53)))
           (PyFloat (S754_finite false 4503599627370496 (-53))) (PyBool false)).
  left; reflexivity.
Defined.

(* ------------------------------------------------------------------ *)
(** ** [_check_bounds] *)


Lemma check_bounds_spec lb ub :
  _check_bounds lb ub = Return tt <->
  (lb = PyNone \/ isinstance_Number lb = true) /\
  (ub = PyNone \/ isinstance_Number ub = true) /\
  (lb = PyNone \/ ub = PyNone \/ py_gt lb ub = false).
Proof.
  unfold _check_bounds, raise_if.
  destruct lb, ub; cbn [is_none negb isinstance_Number obind andb];
    try (split; [intros _; repeat split; auto | reflexivity]);
    try (split; [discriminate
                | intros (H1 & H2 & H3); repeat destruct H1 as [H1 | H1];
                  repeat destruct H2 as [H2 | H2]; discriminate]);
    destruct (py_gt _ _) eqn:Hgt;
    (split; [try discriminate; intros _; repeat split; auto
            | try reflexivity;
              intros (_ & _ & [H | [H | H]]); discriminate]).
Qed.

Lemma check_bounds_raises lb ub e :
  _check_bounds lb ub = Raise e ->
  (e = TypeError "lb" /\ lb <> PyNone /\ isinstance_Number lb = false) \/
  (e = TypeError "ub" /\ ub <> PyNone /\ isinstance_Number ub = false) \/
  (e = ValueError "lb > ub" /\ py_gt lb ub = true).
Proof.
  unfold _check_bounds, raise_if.
  destruct lb, ub; cbn [is_none negb isinstance_Number obind andb];
    try discriminate;
    try (intros [= <-]; left; repeat split; discriminate);
    try (intros [= <-]; right; left; repeat split; discriminate);
    destruct (py_gt _ _) eqn:Hgt; try discriminate;
    intros [= <-]; right; right; split; reflexivity.
Qed.

(** X3. [_check_bounds] returns exactly when each bound is [None] or a
    number and, with both given, [lb > ub] is false.  A bound that is given
    and is not a number raises [TypeError], whatever the other bound is;
    and the call raises nothing but [TypeError] and, for two bounds with
    [lb > ub], [ValueError]. *)
Theorem check_bounds_accepts_iff lb ub :
  (_check_bounds lb ub = Return tt <->
   (lb = PyNone \/ isinstance_Number lb = true) /\
   (ub = PyNone \/ isinstance_Number ub = true) /\
   (lb = PyNone \/ ub = PyNone \/ py_gt lb ub = false)) /\
  (lb <> PyNone -> isinstance_Number lb = false ->
   _check_bounds lb ub = Raise (TypeError "lb")) /\
  (ub <> PyNone -> isinstance_Number ub = false ->
   exists what, _check_bounds lb ub = Raise (TypeError what)) /\
  (forall e, _check_bounds lb ub = Raise e ->
     (exists what, e = TypeError what) \/
     (e = ValueError "lb > ub" /\ lb <> PyNone /\ ub <> PyNone /\
      py_gt lb ub = true)).
Proof.
  split; [apply check_bounds_spec |].
  split; [| split].
  - destruct lb; try contradiction; try discriminate; reflexivity.
  - destruct ub; try contradiction; try discriminate; intros _ _;
      destruct lb; eexists; reflexivity.
  - intros e He.
    destruct (check_bounds_raises _ _ _ He)
      as [(-> & _) | [(-> & _) | (-> & Hgt)]]; [left; eauto | left; eauto |].
    right; repeat split; auto; intros ->; revert He;
      unfold _check_bounds, raise_if.
    + destruct ub; cbn; discriminate.
    + destruct lb; cbn; discriminate.
Qed.

(** An integer and a float in order; a string is not a bound. *)
Lemma check_bounds_accepts_iff_witness :
  _check_bounds (PyInt 0) (PyFloat f_one) = Return tt /\
  _check_bounds (PyStr "low") (PyFloat f_one) = Raise (TypeError "lb").
Proof.
  split.
  - apply (proj1 (check_bounds_accepts_iff (PyInt 0) (PyFloat f_one))).
    repeat split; right; try right; reflexivity.
  - apply (proj1 (proj2 (check_bounds_accepts_iff (PyStr "low") (PyFloat f_one))));
      [discriminate | reflexivity].
Defined.



(* ------------------------------------------------------------------ *)
(** ** [_check_splits] *)

Lemma filter_all {A} (f : A -> bool) (l : list A) :
  Forall (fun a => f a = true) l -> filter f l = l.
Proof.
  induction 1 as [| a l Ha _ IH]; simpl; [reflexivity |].
  now rewrite Ha, IH.
Qed.

Lemma filter_length_all {A} (f : A -> bool) (l : list A) :
  List.length (filter f l) = List.length l -> Forall (fun a => f a = true) l.
Proof.
  induction l as [| a l IH]; simpl; [constructor |].
  pose proof (filter_length_le f l) as Hle.
  destruct (f a) eqn:Hfa; simpl; intros Hlen.
  - constructor; [assumption | apply IH; lia].
  - lia.
Qed.

Lemma py_set_length_le a : (List.length (py_set a) <= List.length a)%nat.
Proof.
  induction a as [| v t IH]; simpl; [lia |].
  pose proof (filter_length_le (fun w => negb (SFeqb w v)) (py_set t)); lia.
Qed.

Lemma py_set_distinct a : pairwise_distinct a -> py_set a = a.
Proof.
  induction 1 as [| v t Hv _ IH]; simpl; [reflexivity |].
  rewrite IH, filter_all; [reflexivity |].
  eapply Forall_impl; [| exact Hv]; simpl; intros w ->; reflexivity.
Qed.

(** [len(set(a)) == len(a)] holds exactly for arrays without two equal
    elements. *)
Lemma py_set_length_distinct a :
  List.length (py_set a) = List.length a <-> pairwise_distinct a.
Proof.
  split; [| intros H; now rewrite py_set_distinct].
  induction a as [| v t IH]; simpl; intros Hlen; [constructor |].
  pose proof (filter_length_le (fun w => negb (SFeqb w v)) (py_set t)) as H1.
  pose proof (py_set_length_le t) as H2.
  assert (Ht : pairwise_distinct t) by (apply IH; lia).
  constructor; [| assumption].
  assert (Hall : Forall (fun w => negb (SFeqb w v) = true) (py_set t))
    by (apply filter_length_all; lia).
  rewrite (py_set_distinct _ Ht) in Hall.
  eapply Forall_impl; [| exact Hall]; simpl; intros w Hw.
  now apply negb_true_iff in Hw.
Qed.

Lemma check_array_spec a r :
  check_array a = Return r <->
  r = a /\ forallb is_finite a = true /\ a <> [].
Proof.
  unfold check_array, raise_if.
  destruct (forallb is_finite a); cbn [negb obind].
  - destruct a; cbn; split.
    + discriminate.
    + now intros (_ & _ & H).
    + intros [= <-]; repeat split; discriminate.
    + now intros (-> & _).
  - split; [discriminate | intros (_ & H & _); discriminate].
Qed.

Lemma check_array_raises a e :
  check_array a = Raise e -> exists what, e = ValueError what.
Proof.
  unfold check_array; intros H.
  apply obind_raise_if_Raise in H as [-> | H]; [eauto |].
  apply obind_raise_if_Raise in H as [-> | H]; [eauto | discriminate].
Qed.

Lemma check_splits_spec splits :
  (exists r, _check_splits splits = Return r) <->
  splits <> [] /\ forallb is_finite splits = true /\ pairwise_distinct splits.
Proof.
  unfold _check_splits; split.
  - intros [r H].
    apply obind_Return_inv in H as (a & Ha & H).
    apply check_array_spec in Ha as (-> & Hfin & Hne).
    apply obind_raise_if_Return in H as [Huniq _].
    apply negb_false_iff, Nat.eqb_eq, py_set_length_distinct in Huniq; auto.
  - intros (Hne & Hfin & Hd).
    assert (Ha : check_array splits = Return splits)
      by (apply check_array_spec; auto).
    apply py_set_length_distinct in Hd.
    rewrite Ha; cbn [obind]; unfold raise_if.
    rewrite Hd, Nat.eqb_refl; cbn; eauto.
Qed.

Lemma check_splits_raises splits e :
  _check_splits splits = Raise e -> exists what, e = ValueError what.
Proof.
  unfold _check_splits; intros H.
  apply obind_Raise_inv in H as [H | (a & _ & H)].
  - eauto using check_array_raises.
  - apply obind_raise_if_Raise in H as [-> | H]; [eauto | discriminate].
Qed.

(** X5. [_check_splits] returns exactly for a non-empty array of finite
    values without two elements equal for [==] (so 0.0 and -0.0 together
    are refused); otherwise it raises [ValueError]. *)
Theorem check_splits_accepts_iff splits :
  ((exists r, _check_splits splits = Return r) <->
   splits <> [] /\ forallb is_finite splits = true /\
   pairwise_distinct splits) /\
  (forall e, _check_splits splits = Raise e -> exists what, e = ValueError what).
Proof.
  split; [apply check_splits_spec | apply check_splits_raises].
Qed.

Lemma check_splits_accepts_iff_witness :
  exists r, _check_splits [F 2; F (-1); F 7] = Return r.
Proof.
  apply (proj1 (check_splits_accepts_iff [F 2; F (-1); F 7])).
  split; [discriminate |].
  split; [reflexivity |].
  repeat constructor.
Defined.

Lemma SFleb_neq_ltb v w :
  SFleb v w = true -> SFeqb w v = false -> SFltb v w = true.
Proof.
  unfold SFleb, SFeqb, SFltb; rewrite (SFcompare_antisym v w).
  destruct (SFcompare v w) as [[]|]; simpl; congruence.
Qed.

Lemma argsort_insert_ascending i v l :
  is_nan v = false ->
  Forall (fun jw => is_nan (snd jw) = false /\ SFeqb (snd jw) v = false) l ->
  ascending (map snd l) -> ascending (map snd (argsort_insert i v l)).
Proof.
  intros Hv; unfold ascending.
  induction l as [| [j w] t IH]; intros Hall Hs; simpl.
  - repeat constructor.
  - inversion Hall as [| ? ? [Hw Hwv] Ht]; subst; simpl in Hw, Hwv.
    inversion Hs as [| ? ? Hst Hhd]; subst.
    unfold npy_lt at 1; rewrite Hv, andb_false_l, orb_false_r.
    destruct (SFltb w v) eqn:Hlt; simpl.
    + constructor; [auto |].
      destruct t as [| [k u] t']; simpl.
      * now constructor.
      * destruct (npy_lt u v); simpl; constructor; [now inversion Hhd | assumption].
    + constructor; [assumption |].
      constructor. apply SFleb_neq_ltb; [| assumption].
      now apply SFltb_false_leb.
Qed.

Lemma Forall_combine_snd {A B} (Q : B -> Prop) (l : list A) (t : list B) :
  Forall Q t -> Forall (fun jw => Q (snd jw)) (combine l t).
Proof.
  intros H; revert l; induction H as [| b t Hb _ IH]; intros [| a l]; simpl;
    constructor; auto.
Qed.

Lemma argsort_pairs_ascending k (a : array) :
  Forall (fun v => is_nan v = false) a -> pairwise_distinct a ->
  ascending
    (map snd (fold_right (fun iv acc => argsort_insert (fst iv) (snd iv) acc)
                         [] (combine (seq k (List.length a)) a))).
Proof.
  intros Hnan Hd; revert k.
  induction Hd as [| v t Hv Ht IH]; intros k; simpl; [constructor |].
  inversion Hnan as [| ? ? Hvn Htn]; subst.
  apply argsort_insert_ascending; auto.
  apply argsort_pairs_Forall.
  apply (Forall_combine_snd
           (fun w => is_nan w = false /\ SFeqb w v = false)).
  rewrite Forall_forall in *; auto.
Qed.

Lemma argsort_insert_perm i v l :
  Permutation (argsort_insert i v l) ((i, v) :: l).
Proof.
  induction l as [| [j w] t IH]; simpl; [reflexivity |].
  destruct (npy_lt w v); [| reflexivity].
  rewrite IH; apply perm_swap.
Qed.

Lemma argsort_pairs_perm (ps : list (nat * spec_float)) :
  Permutation
    (fold_right (fun iv acc => argsort_insert (fst iv) (snd iv) acc) [] ps) ps.
Proof.
  induction ps as [| [i v] ps IH]; simpl; [reflexivity |].
  rewrite argsort_insert_perm; now constructor.
Qed.

Lemma map_snd_combine_same {A B} (l : list A) (l' : list B) :
  List.length l = List.length l' -> map snd (combine l l') = l'.
Proof.
  revert l'; induction l as [| a l IH]; intros [| b l']; simpl;
    try reflexivity; try discriminate.
  intros [= Hlen]; now rewrite IH.
Qed.

Lemma take_argsort (a : array) :
  take a (argsort a)
  = map snd (fold_right (fun iv acc => argsort_insert (fst iv) (snd iv) acc)
                        [] (combine (seq 0 (List.length a)) a)).
Proof.
  unfold argsort; apply take_pairs.
  apply argsort_pairs_Forall, (enumerate_nth [] a).
Qed.

(** [np.argsort(a)] is a permutation of the indices, and [a[np.argsort(a)]]
    of the elements. *)
Lemma argsort_perm (a : array) :
  Permutation (argsort a) (seq 0 (List.length a)) /\
  Permutation (take a (argsort a)) a.
Proof.
  split.
  - unfold argsort.
    rewrite argsort_pairs_perm, map_fst_combine_same;
      [reflexivity | now rewrite length_seq].
  - rewrite take_argsort, argsort_pairs_perm, map_snd_combine_same;
      [reflexivity | now rewrite length_seq].
Qed.

Lemma finite_not_nan (a : array) :
  forallb is_finite a = true -> Forall (fun v => is_nan v = false) a.
Proof.
  rewrite forallb_forall, Forall_forall; intros H v Hin.
  specialize (H v Hin); destruct v; try discriminate; reflexivity.
Qed.

Lemma check_splits_result splits r :
  _check_splits splits = Return r ->
  r = take splits (argsort splits) /\ ascending r /\ Permutation r splits.
Proof.
  intros H.
  destruct (proj1 (check_splits_spec splits) (ex_intro _ r H))
    as (Hne & Hfin & Hd).
  unfold _check_splits in H.
  apply obind_Return_inv in H as (a & Ha & H).
  apply check_array_spec in Ha as (-> & _ & _).
  apply obind_raise_if_Return in H as [_ [= <-]].
  split; [reflexivity |]. split; [| apply argsort_perm].
  rewrite take_argsort; apply argsort_pairs_ascending; auto using finite_not_nan.
Qed.

(** X6. The array that [_check_splits] returns holds the elements of its
    argument, each once, in strictly ascending order: it is what
    [np.digitize] takes for increasing bins, and binning a sample with it
    is right-open. *)
Theorem check_splits_returns_ascending_permutation splits r x :
  _check_splits splits = Return r ->
  ascending r /\ Permutation r splits /\
  exists indices,
    digitize x r = Return indices /\ Forall2 (in_segment r) x indices.
Proof.
  intros H; apply check_splits_result in H as (_ & Hasc & Hperm).
  auto using digitize_right_open.
Qed.

Lemma check_splits_returns_ascending_permutation_witness :
  ascending [F (-1); F 2; F 7] /\
  Permutation [F (-1); F 2; F 7] [F 2; F (-1); F 7] /\
  exists indices,
    digitize [F 2] [F (-1); F 2; F 7] = Return indices /\
    Forall2 (in_segment [F (-1); F 2; F 7]) [F 2] indices.
Proof.
  apply (check_splits_returns_ascending_permutation
           [F 2; F (-1); F 7] [F (-1); F 2; F 7] [F 2]).
  vm_compute; reflexivity.
Defined.

Lemma ascending_distinct (a : array) : ascending a -> pairwise_distinct a.
Proof.
  induction a as [| h t IH]; intros Hs; constructor.
  - pose proof (ascending_head_below _ _ Hs) as Hall.
    eapply Forall_impl; [| exact Hall]; simpl.
    intros w Hw; now apply SFltb_not_eqb.
  - apply IH; eauto using ascending_tail.
Qed.

Lemma argsort_pairs_of_ascending k (a : array) :
  ascending a ->
  fold_right (fun iv acc => argsort_insert (fst iv) (snd iv) acc) []
             (combine (seq k (List.length a)) a)
  = combine (seq k (List.length a)) a.
Proof.
  revert k; induction a as [| h t IH]; intros k Hs; [reflexivity |].
  cbn [List.length seq combine fold_right fst snd].
  rewrite IH by eauto using ascending_tail.
  destruct t as [| w t']; [reflexivity |].
  cbn [List.length seq combine argsort_insert].
  inversion Hs as [| ? ? _ Hhd]; subst.
  inversion Hhd as [| ? ? Hlt]; subst.
  unfold npy_lt; rewrite (SFltb_asym _ _ Hlt).
  apply SFltb_not_nan in Hlt as [-> _]; reflexivity.
Qed.

Lemma check_splits_fixes_ascending splits :
  splits <> [] -> forallb is_finite splits = true -> ascending splits ->
  _check_splits splits = Return splits.
Proof.
  intros Hne Hfin Hasc.
  destruct (proj2 (check_splits_spec splits)) as [r Hr];
    [auto using ascending_distinct |].
  rewrite Hr; f_equal.
  apply check_splits_result in Hr as (-> & _ & _).
  rewrite take_argsort, argsort_pairs_of_ascending by assumption.
  apply map_snd_combine_same; now rewrite length_seq.
Qed.

(** X7. [_check_splits] leaves alone an array that it accepts and that is
    already in ascending order; in particular it returns its own result
    unchanged. *)
Theorem check_splits_idempotent splits r :
  _check_splits splits = Return r ->
  _check_splits r = Return r /\
  (ascending splits -> r = splits).
Proof.
  intros H.
  destruct (proj1 (check_splits_spec splits) (ex_intro _ r H))
    as (Hne & Hfin & _).
  pose proof (check_splits_result _ _ H) as (_ & Hasc & Hperm).
  split.
  - apply check_splits_fixes_ascending; [| | assumption].
    + intros ->; apply Permutation_nil in Hperm; contradiction.
    + apply forallb_forall; intros v Hv.
      rewrite forallb_forall in Hfin; apply Hfin.
      now apply (Permutation_in _ Hperm).
  - intros Hs.
    rewrite (check_splits_fixes_ascending _ Hne Hfin Hs) in H; congruence.
Qed.

Lemma check_splits_idempotent_witness :
  _check_splits [F (-1); F 2; F 7] = Return [F (-1); F 2; F 7].
Proof.
  apply (check_splits_idempotent [F 2; F (-1); F 7] [F (-1); F 2; F 7]).
  vm_compute; reflexivity.
Defined.

(* ------------------------------------------------------------------ *)
(** ** [_choose_method], on parameters that need not be validated *)

Lemma py_eq_str_iff v s : py_eq v (PyStr s) = true <-> v = PyStr s.
Proof.
  split; [apply py_eq_str | intros ->; simpl; apply String.eqb_refl].
Qed.

(** X8. [_choose_method] raises in two situations only: the solver
    "direct" with an objective other than "l2", a trend, or bounds; and the
    solver "osqp" with an objective other than "l2".  The solvers "auto"
    and "ecos" always lead to one of the six formulations. *)
Theorem choose_method_raises_iff
    objective degree continuous monotonic_trend solver (bounded : bool) :
  (forall e,
     _choose_method objective degree continuous monotonic_trend solver bounded
     = Raise e <->
     (solver = PyStr "direct" /\
      (py_ne objective (PyStr "l2") = true \/ is_none monotonic_trend = false \/
       bounded = true) /\
      e = ValueError "solver direct") \/
     (solver = PyStr "osqp" /\ py_eq objective (PyStr "l2") = false /\
      e = ValueError "solver osqp")) /\
  (solver = PyStr "auto" \/ solver = PyStr "ecos" ->
   exists tag,
     _choose_method objective degree continuous monotonic_trend solver bounded
     = Return (PyStr tag) /\ In tag canonical_methods).
Proof.
  split.
  - intros e; unfold _choose_method; split.
    + destruct (py_eq solver (PyStr "auto")) eqn:Hauto.
      { destruct bounded, (py_eq objective (PyStr "l2")),
          (is_none monotonic_trend), (truthy continuous); discriminate. }
      destruct (py_eq solver (PyStr "direct")) eqn:Hdirect.
      { apply py_eq_str in Hdirect.
        destruct (py_ne objective (PyStr "l2")) eqn:Ho,
          (is_none monotonic_trend) eqn:Hm, bounded eqn:Hb,
          (truthy continuous); cbn; try discriminate;
          intros [= <-]; left; auto. }
      destruct (py_eq solver (PyStr "osqp")) eqn:Hosqp.
      { apply py_eq_str in Hosqp.
        destruct (py_eq objective (PyStr "l2")) eqn:Ho, (truthy continuous);
          try discriminate; intros [= <-]; right; auto. }
      destruct (py_eq solver (PyStr "ecos")), (truthy continuous); discriminate.
    + intros [(-> & Hbad & ->) | (-> & Ho & ->)]; cbn.
      * destruct (py_ne objective (PyStr "l2")), (is_none monotonic_trend),
          bounded; cbn; try reflexivity.
        destruct Hbad as [? | [? | ?]]; discriminate.
      * now rewrite Ho.
  - intros [-> | ->]; unfold _choose_method; cbn;
      [destruct bounded, (py_eq objective (PyStr "l2")),
         (is_none monotonic_trend) |];
      destruct (truthy continuous);
      eexists; (split; [reflexivity | simpl; tauto]).
Qed.

Lemma choose_method_raises_iff_witness :
  _choose_method (PyStr "l1") (PyInt 1) (PyBool true) PyNone (PyStr "direct")
                 false = Raise (ValueError "solver direct") /\
  exists tag,
    _choose_method (PyStr "l1") (PyInt 1) (PyInt 7) (PyStr "peak")
                   (PyStr "auto") true = Return (PyStr tag) /\
    In tag canonical_methods.
Proof.
  split.
  - apply (proj1 (choose_method_raises_iff (PyStr "l1") (PyInt 1) (PyBool true)
                    PyNone (PyStr "direct") false)).
    left; repeat split; left; reflexivity.
  - apply (proj2 (choose_method_raises_iff (PyStr "l1") (PyInt 1) (PyInt 7)
                    (PyStr "peak") (PyStr "auto") true)).
    left; reflexivity.
Defined.

(** X9. Whatever the parameters, validated or not, [_choose_method] answers
    "lsq_direct" or "lsq_direct_separated" only for the objective "l2"
    without trend and without bounds: the builders that take neither bounds
    nor a trend are never selected when one of them is requested. *)
Theorem choose_method_direct_needs_plain_l2
    objective degree continuous monotonic_trend solver (bounded : bool) v :
  _choose_method objective degree continuous monotonic_trend solver bounded
  = Return v ->
  v = PyStr "lsq_direct" \/ v = PyStr "lsq_direct_separated" ->
  py_eq objective (PyStr "l2") = true /\ monotonic_trend = PyNone /\
  bounded = false.
Proof.
  unfold _choose_method, py_ne.
  destruct (py_eq solver (PyStr "auto")), (py_eq solver (PyStr "direct")),
    (py_eq solver (PyStr "osqp")), (py_eq solver (PyStr "ecos")),
    (py_eq objective (PyStr "l2")), (is_none monotonic_trend) eqn:Hm,
    bounded, (truthy continuous); cbn;
    intros [= <-] [Hv | Hv]; try discriminate;
    apply is_none_true in Hm; auto.
Qed.

Lemma choose_method_direct_needs_plain_l2_witness :
  py_eq (PyStr "l2") (PyStr "l2") = true /\ PyNone = PyNone /\ false = false.
Proof.
  apply (choose_method_direct_needs_plain_l2 (PyStr "l2") (PyInt 3)
           (PyBool false) PyNone (PyStr "direct") false
           (PyStr "lsq_direct_separated")).
  - reflexivity.
  - right; reflexivity.
Defined.

(* ------------------------------------------------------------------ *)
(** ** [fit] *)

Lemma bounded_true lb ub :
  lb <> PyNone \/ ub <> PyNone ->
  negb (is_none lb) || negb (is_none ub) = true.
Proof.
  destruct lb, ub; simpl; try reflexivity; intros [H | H]; contradiction.
Qed.

(** X10. When [fit] is called with a bound and returns, the table that it
    stores was returned by one of the four builders that receive [lb] and
    [ub] ([socp], [socp_separated], [qp], [qp_separated]), called with the
    bounds of the call and with the data reordered by a permutation of the
    indices that sorts [x]: bounds are never dropped on the way to the
    builder. *)
Theorem fit_bounds_reach_builder `{Backend} x y splits lb ub self self' :
  fit x y splits lb ub self = (Return tt, self') ->
  lb <> PyNone \/ ub <> PyNone ->
  exists idx c,
    Permutation idx (seq 0 (List.length x)) /\
    non_descending (take x idx) /\
    coef_ self' = Some c /\
    (socp (take x idx) (take y idx) splits (degree self)
          lb ub (objective self) (monotonic_trend self) (h_epsilon self)
          (quantile self) (solver self) (verbose self) = Return c \/
     socp_separated (take x idx) (take y idx) splits
          (degree self) lb ub (objective self) (monotonic_trend self)
          (h_epsilon self) (quantile self) (solver self) (verbose self)
     = Return c \/
     qp (take x idx) (take y idx) splits (degree self)
        lb ub (monotonic_trend self) (verbose self) = Return c \/
     qp_separated (take x idx) (take y idx) splits
        (degree self) lb ub (monotonic_trend self) (verbose self) = Return c).
Proof.
  intros Hfit Hb; apply bounded_true in Hb.
  apply fit_return_inv in Hfit as (Hcheck & _ & m & c & Hm & Hsolve & ->).
  destruct (check_parameters_inv _ _ _ _ _ _ _ _ Hcheck)
    as ([o Ho] & [cb Hc] & [sh Hsh] & [s Hs] & _).
  rewrite Ho, Hc, Hsh, Hs, Hb in Hm.
  exists (argsort x), c.
  split; [apply argsort_perm |].
  split; [apply take_argsort_sorted |].
  split; [reflexivity |].
  destruct s, o, cb, sh as [[]|]; cbn in Hm; try discriminate;
    injection Hm as <-; unfold solve in Hsolve; cbn in Hsolve; tauto.
Qed.

(** A call with an upper bound and the solver "osqp": the table comes from
    [qp], which is given the bound. *)
Lemma fit_bounds_reach_builder_witness :
  exists idx c,
    Permutation idx (seq 0 2) /\
    non_descending (take [F 2; F 0] idx) /\
    coef_ (snd (@fit echo_backend [F 2; F 0] [F 5; F 7] [F 1] PyNone
                     (PyFloat (F 9))
                     (__init__ (PyStr "l2") (PyInt 1) (PyBool true) PyNone
                               (PyStr "osqp") (PyFloat f_one)
                               (quantile default_estimator) (PyBool false))))
    = Some c.
Proof.
  destruct (@fit_bounds_reach_builder echo_backend
              [F 2; F 0] [F 5; F 7] [F 1] PyNone (PyFloat (F 9))
              (__init__ (PyStr "l2") (PyInt 1) (PyBool true) PyNone
                        (PyStr "osqp") (PyFloat f_one)
                        (quantile default_estimator) (PyBool false))
              _ eq_refl) as (idx & c & Hperm & Hsorted & Hc & _).
  - right; discriminate.
  - exists idx, c; auto.
Defined.

Lemma fit_steps `{Backend} x y splits lb ub self :
  fit x y splits lb ub self
  = match _check_parameters (objective self) (degree self) (continuous self)
            (monotonic_trend self) (solver self) (h_epsilon self)
            (quantile self) (verbose self) with
    | Raise e => (Raise e, self)
    | Return _ =>
      match check_array x with
      | Raise e => (Raise e, self)
      | Return x' =>
        match check_array y with
        | Raise e => (Raise e, self)
        | Return y' =>
          match check_consistent_length x' y' with
          | Raise e => (Raise e, self)
          | Return _ =>
            match _check_splits splits with
            | Raise e => (Raise e, self)
            | Return _ =>
              match (if negb (is_none lb) || negb (is_none ub)
                     then _check_bounds lb ub else Return tt) with
              | Raise e => (Raise e, self)
              | Return _ =>
                match _choose_method (objective self) (degree self)
                        (continuous self) (monotonic_trend self) (solver self)
                        (negb (is_none lb) || negb (is_none ub)) with
                | Raise e => (Raise e, self)
                | Return _method =>
                  match solve self _method (take x' (argsort x'))
                              (take y' (argsort x')) splits lb ub with
                  | Raise e => (Raise e, self)
                  | Return c => (Return tt, fitted_with self c splits)
                  end
                end
              end
            end
          end
        end
      end
    end.
Proof.
  unfold fit, mbind, get_self, lift, mret, set_coef_, set_splits, set_is_fitted.
  destruct (negb (is_none lb) || negb (is_none ub)); cbn beta iota;
    repeat match goal with
           | |- context [match ?o with Return _ => _ | Raise _ => _ end] =>
               destruct o; try reflexivity
           end.
Qed.

Lemma check_consistent_length_spec x y u :
  check_consistent_length x y = Return u <-> List.length x = List.length y.
Proof.
  unfold check_consistent_length, raise_if; destruct u.
  destruct (Nat.eqb_spec (List.length x) (List.length y)); cbn;
    split; intros; congruence.
Qed.

Lemma check_consistent_length_raises x y e :
  check_consistent_length x y = Raise e -> exists what, e = ValueError what.
Proof. intros H; apply raise_if_Raise in H; eauto. Qed.

(** A call of [fit] that returns, with everything that the checks before
    the solve have established. *)
Lemma fit_return_data `{Backend} x y splits lb ub self self' :
  fit x y splits lb ub self = (Return tt, self') ->
  (x <> [] /\ forallb is_finite x = true) /\
  (y <> [] /\ forallb is_finite y = true) /\
  List.length x = List.length y /\
  (splits <> [] /\ forallb is_finite splits = true /\
   pairwise_distinct splits).
Proof.
  rewrite fit_steps; intros Hfit.
  destruct (_check_parameters _ _ _ _ _ _ _ _); [| discriminate].
  destruct (check_array x) as [x' |] eqn:Hx; [| discriminate].
  destruct (check_array y) as [y' |] eqn:Hy; [| discriminate].
  apply check_array_spec in Hx as (-> & Hxf & Hxn).
  apply check_array_spec in Hy as (-> & Hyf & Hyn).
  destruct (check_consistent_length x y) eqn:Hlen; [| discriminate].
  apply check_consistent_length_spec in Hlen.
  destruct (_check_splits splits) as [r |] eqn:Hs; [| discriminate].
  pose proof (proj1 (check_splits_spec splits) (ex_intro _ r Hs)).
  auto.
Qed.

(** X11. [fit] does not return on data that the checks refuse: an empty
    [x], [y] or [splits], a NaN or an infinity in one of them, [x] and [y]
    of different lengths, or two equal split points.  It raises a
    [ValueError] (or the error of an invalid parameter, which is tested
    first), the same for all bounds and builders, and leaves the instance
    as it was. *)
Theorem fit_rejects_bad_data x y splits self :
  x = [] \/ forallb is_finite x = false \/
  y = [] \/ forallb is_finite y = false \/
  List.length x <> List.length y \/
  splits = [] \/ forallb is_finite splits = false \/
  ~ pairwise_distinct splits ->
  exists e,
    is_configuration_error e = true /\
    forall (B : Backend) lb ub, fit x y splits lb ub self = (Raise e, self).
Proof.
  intros Hbad.
  destruct (_check_parameters (objective self) (degree self) (continuous self)
              (monotonic_trend self) (solver self) (h_epsilon self)
              (quantile self) (verbose self)) as [[] | e] eqn:Hp.
  2:{ exists e; split;
        [eauto using check_parameters_raises_configuration |].
      intros; rewrite fit_steps, Hp; reflexivity. }
  destruct (check_array x) as [x' | e] eqn:Hx.
  2:{ exists e; split;
        [destruct (check_array_raises _ _ Hx) as [w ->]; reflexivity |].
      intros; rewrite fit_steps, Hp, Hx; reflexivity. }
  destruct (check_array y) as [y' | e] eqn:Hy.
  2:{ exists e; split;
        [destruct (check_array_raises _ _ Hy) as [w ->]; reflexivity |].
      intros; rewrite fit_steps, Hp, Hx, Hy; reflexivity. }
  destruct (check_consistent_length x' y') as [[] | e] eqn:Hlen.
  2:{ exists e; split;
        [destruct (check_consistent_length_raises _ _ _ Hlen) as [w ->];
         reflexivity |].
      intros; rewrite fit_steps, Hp, Hx, Hy, Hlen; reflexivity. }
  destruct (_check_splits splits) as [r | e] eqn:Hs.
  2:{ exists e; split;
        [destruct (check_splits_raises _ _ Hs) as [w ->]; reflexivity |].
      intros; rewrite fit_steps, Hp, Hx, Hy, Hlen, Hs; reflexivity. }
  exfalso.
  apply check_array_spec in Hx as (-> & Hxf & Hxn).
  apply check_array_spec in Hy as (-> & Hyf & Hyn).
  apply check_consistent_length_spec in Hlen.
  destruct (proj1 (check_splits_spec splits) (ex_intro _ r Hs))
    as (Hsn & Hsf & Hsd).
  intuition congruence.
Qed.

(** No split point: [fit] raises, so a fit with a single segment cannot be
    requested. *)
Lemma fit_rejects_bad_data_witness :
  exists e,
    is_configuration_error e = true /\
    forall (B : Backend) lb ub,
      fit [F 0; F 2] [F 5; F 7] [] lb ub default_estimator
      = (Raise e, default_estimator).
Proof.
  apply (fit_rejects_bad_data [F 0; F 2] [F 5; F 7] [] default_estimator).
  do 5 right; left; reflexivity.
Defined.

(** X12. What [fit] does depends on the parameters of the instance and on
    its arguments only, not on what an earlier fit has stored: on two
    instances with the same parameters the same call has the same
    outcome, and when it returns the two instances are equal afterwards. *)
Theorem fit_forgets_earlier_fit `{Backend} x y splits lb ub s1 s2 o1 o2 s1' s2' :
  same_parameters s1 s2 ->
  fit x y splits lb ub s1 = (o1, s1') ->
  fit x y splits lb ub s2 = (o2, s2') ->
  o1 = o2 /\ (o1 = Return tt -> s1' = s2').
Proof.
  intros (E1 & E2 & E3 & E4 & E5 & E6 & E7 & E8).
  rewrite !fit_steps; unfold solve, fitted_with.
  rewrite E1, E2, E3, E4, E5, E6, E7, E8.
  repeat match goal with
         | |- context [match ?o with Return _ => _ | Raise _ => _ end] =>
             destruct o
         end;
  repeat match goal with
         | |- context [if ?b then _ else _] => destruct b
         end;
  repeat match goal with
         | |- context [match ?o with Return _ => _ | Raise _ => _ end] =>
             destruct o
         end;
  intros [= <- <-] [= <- <-]; split; congruence.
Qed.

(** Fitting again with other data: the result is the one that a new
    instance would give. *)
Lemma fit_forgets_earlier_fit_witness :
  let first := snd (@fit staircase_backend [F 0; F 2] [F 5; F 7] [F 1; F 3]
                         PyNone PyNone default_estimator) in
  fst (@fit staircase_backend [F 0; F 2] [F 5; F 7] [F 4] PyNone PyNone first)
  = Return tt /\
  snd (@fit staircase_backend [F 0; F 2] [F 5; F 7] [F 4] PyNone PyNone first)
  = snd (@fit staircase_backend [F 0; F 2] [F 5; F 7] [F 4] PyNone PyNone
              default_estimator).
Proof.
  intros first.
  destruct (@fit_forgets_earlier_fit staircase_backend
              [F 0; F 2] [F 5; F 7] [F 4] PyNone PyNone
              first default_estimator _ _ _ _
              ltac:(repeat split) (surjective_pairing _) (surjective_pairing _))
    as [Ho Hs].
  split; [vm_compute; reflexivity | apply Hs; vm_compute; reflexivity].
Defined.

(** X13. The builder is given the data sorted by [x]: one and the same
    permutation of the indices reorders [x] and [y], which have the same
    length, and the reordered [x] is in non-descending order. *)
Theorem fit_passes_sorted_data `{Backend} x y splits lb ub self self' :
  fit x y splits lb ub self = (Return tt, self') ->
  exists idx _method c,
    Permutation idx (seq 0 (List.length x)) /\
    List.length y = List.length x /\
    non_descending (take x idx) /\
    solve self _method (take x idx) (take y idx) splits lb ub = Return c /\
    coef_ self' = Some c.
Proof.
  intros Hfit.
  pose proof (fit_return_data _ _ _ _ _ _ _ Hfit) as (_ & _ & Hlen & _).
  apply fit_return_inv in Hfit as (_ & _ & m & c & _ & Hsolve & ->).
  exists (argsort x), m, c.
  split; [apply argsort_perm |].
  split; [now symmetry |].
  split; [apply take_argsort_sorted |].
  split; [assumption | reflexivity].
Qed.

Lemma fit_passes_sorted_data_witness :
  exists idx _method c,
    Permutation idx (seq 0 3) /\
    List.length [F 5; F 7; F 6] = 3%nat /\
    non_descending (take [F 2; F 0; F 1] idx) /\
    @solve echo_backend default_estimator _method (take [F 2; F 0; F 1] idx)
           (take [F 5; F 7; F 6] idx) [F 1] PyNone PyNone = Return c /\
    coef_ (snd (@fit echo_backend [F 2; F 0; F 1] [F 5; F 7; F 6] [F 1]
                     PyNone PyNone default_estimator)) = Some c.
Proof.
  apply (@fit_passes_sorted_data echo_backend [F 2; F 0; F 1] [F 5; F 7; F 6]
           [F 1] PyNone PyNone default_estimator).
  vm_compute; reflexivity.
Defined.

(** X14. The three fitted attributes stay together, and a fitted instance
    stays fitted: a new instance is [consistent], every call of [fit],
    returning or raising, keeps an instance [consistent], leaves
    [_is_fitted] set when it was, and sets it when the call returns. *)
Theorem fit_keeps_consistent `{Backend} x y splits lb ub self o self' :
  consistent self ->
  fit x y splits lb ub self = (o, self') ->
  consistent self' /\
  (_is_fitted self = true -> _is_fitted self' = true) /\
  (o = Return tt -> _is_fitted self' = true) /\
  (forall objective degree continuous monotonic_trend solver h_epsilon
          quantile verbose,
     consistent (__init__ objective degree continuous monotonic_trend solver
                          h_epsilon quantile verbose)).
Proof.
  intros Hc Hfit; destruct o as [[] | e].
  - apply fit_return_inv in Hfit as (_ & _ & m & c & _ & _ & ->).
    repeat split; cbn; auto; discriminate.
  - apply fit_raise_unchanged in Hfit; subst.
    repeat split; cbn; auto; discriminate.
Qed.

Lemma fit_keeps_consistent_witness :
  consistent (snd (@fit staircase_backend [F 0; F 2] [F 5; F 7] [F 1]
                        PyNone PyNone default_estimator)).
Proof.
  apply (@fit_keeps_consistent staircase_backend [F 0; F 2] [F 5; F 7] [F 1]
           PyNone PyNone default_estimator (Return tt)).
  - split; reflexivity.
  - vm_compute; reflexivity.
Defined.

(* ------------------------------------------------------------------ *)
(** ** [predict]: shape, rows and errors *)

Lemma mask_assign_length pred mask vals :
  List.length (mask_assign pred mask vals) = List.length pred.
Proof.
  revert mask vals; induction pred as [| p pred IH]; intros [| [] mask] vals;
    simpl; try reflexivity.
  - destruct vals; simpl; now rewrite IH.
  - now rewrite IH.
Qed.

Lemma predict_loop_length coef x indices bins pred r :
  predict_loop coef x indices bins pred = Return r ->
  List.length r = List.length pred.
Proof.
  revert pred; induction bins as [| i bins IH]; intros pred; simpl.
  - now intros [= <-].
  - intros H; apply obind_Return_inv in H as (row & _ & H).
    apply IH in H; now rewrite mask_assign_length in H.
Qed.

Lemma coef_row_Return coef i row :
  coef_row coef i = Return row ->
  exists c, coef = Some c /\ nth_error c i = Some row /\
            (i < List.length c)%nat.
Proof.
  unfold coef_row; destruct coef as [c |]; [| discriminate].
  destruct (nth_error c i) as [r |] eqn:Hr; intros [= <-].
  exists c; repeat split; auto.
  apply nth_error_Some; congruence.
Qed.

(** The loop returns only if the table has a row for every segment that it
    visits. *)
Lemma predict_loop_rows coef x indices bins pred r :
  predict_loop coef x indices bins pred = Return r ->
  forall i, In i bins ->
            exists c, coef = Some c /\ (i < List.length c)%nat.
Proof.
  revert pred; induction bins as [| j bins IH]; intros pred; simpl.
  - intros _ i [].
  - intros H i Hin; apply obind_Return_inv in H as (row & Hrow & H).
    destruct Hin as [<- | Hin]; [| eauto].
    apply coef_row_Return in Hrow as (c & -> & _ & Hlt); eauto.
Qed.

Lemma predict_loop_raises coef x indices bins pred e :
  predict_loop coef x indices bins pred = Raise e ->
  (e = TypeError "coef_ is None" /\ coef = None) \/
  (e = IndexError /\ exists c i, coef = Some c /\ In i bins /\
                                 (List.length c <= i)%nat).
Proof.
  revert pred; induction bins as [| j bins IH]; intros pred; simpl;
    [discriminate |].
  intros H; apply obind_Raise_inv in H as [H | (row & Hrow & H)].
  - unfold coef_row in H; destruct coef as [c |].
    + destruct (nth_error c j) eqn:Hj; [discriminate |].
      injection H as <-; right; split; [reflexivity |].
      exists c, j; repeat split; auto. now apply nth_error_None.
    + injection H as <-; now left.
  - apply IH in H as [H | (-> & c & i & Hc & Hin & Hlen)]; [now left |].
    right; split; [reflexivity |]. exists c, i; auto.
Qed.

Lemma searchsorted_right_le bins v :
  (searchsorted_right bins v <= List.length bins)%nat.
Proof. apply searchsorted_right_in_segment. Qed.

Lemma digitize_spec x bins indices :
  digitize x bins = Return indices ->
  List.length indices = List.length x /\
  Forall (fun k => k <= List.length bins)%nat indices.
Proof.
  unfold digitize; intros H.
  apply obind_raise_if_Return in H as [_ H].
  destruct (check_array_monotonic bins =? -1); injection H as <-;
    (split; [apply length_map |]);
    apply Forall_forall; intros k Hk;
    apply in_map_iff in Hk as (v & <- & _).
  - lia.
  - apply searchsorted_right_le.
Qed.

Lemma digitize_raises x bins e :
  digitize x bins = Raise e -> e = ValueError "bins must be monotonic".
Proof.
  unfold digitize; intros H.
  apply obind_raise_if_Raise in H as [-> | H]; [reflexivity |].
  destruct (check_array_monotonic bins =? -1); discriminate.
Qed.

Lemma np_clip_length raw lb ub pred :
  np_clip raw lb ub = Return pred -> List.length pred = List.length raw.
Proof.
  unfold np_clip.
  destruct (is_none lb), (is_none ub); try discriminate;
    destruct (to_float64 lb), (to_float64 ub); cbn; try discriminate;
    intros [= <-]; apply length_map.
Qed.

(** X16. [predict] returns one prediction per sample: the result has the
    length of [x]. *)
Theorem predict_keeps_shape self x lb ub pred :
  predict self x lb ub = Return pred -> List.length pred = List.length x.
Proof.
  intros H.
  apply predict_return_inv in H
    as (splits & indices & raw & _ & _ & _ & Hraw & Hclip).
  apply predict_loop_length in Hraw.
  unfold zeros in Hraw; rewrite repeat_length in Hraw.
  destruct (negb (is_none lb) || negb (is_none ub)).
  - destruct Hclip as [_ Hclip]; apply np_clip_length in Hclip; congruence.
  - congruence.
Qed.

Lemma predict_keeps_shape_witness :
  List.length [F 12; F 15; F 15] = List.length [F 0; F 2; F 4].
Proof.
  apply (predict_keeps_shape
           (fitted_with default_estimator (staircase [F 1; F 3]) [F 1; F 3])
           [F 0; F 2; F 4] (PyFloat (F 12)) (PyFloat (F 15))).
  vm_compute; reflexivity.
Defined.

Lemma predict_loop_short c x indices a n pred :
  (a <= List.length c < a + n)%nat ->
  predict_loop (Some c) x indices (seq a n) pred = Raise IndexError.
Proof.
  revert a pred; induction n as [| n IH]; intros a pred Hlen; [lia |].
  cbn [seq predict_loop coef_row].
  destruct (nth_error c a) as [row |] eqn:Hrow; cbn [obind].
  - assert (a < List.length c)%nat by (apply nth_error_Some; congruence).
    apply IH; lia.
  - reflexivity.
Qed.

(** X17. [predict] reads a row of [coef_] for each of the
    [len(splits) + 1] segments, with or without a sample in it: it returns
    only if the table has that many rows, and with fewer rows it raises
    [IndexError], even for an empty [x]. *)
Theorem predict_needs_row_per_segment self x lb ub :
  (forall pred,
     predict self x lb ub = Return pred ->
     exists splits coef,
       _splits self = Some splits /\ coef_ self = Some coef /\
       (List.length splits + 1 <= List.length coef)%nat) /\
  (forall splits coef indices,
     _is_fitted self = true ->
     _splits self = Some splits -> coef_ self = Some coef ->
     (List.length coef <= List.length splits)%nat ->
     digitize x splits = Return indices ->
     (lb = PyNone /\ ub = PyNone) \/ _check_bounds lb ub = Return tt ->
     predict self x lb ub = Raise IndexError).
Proof.
  split.
  - intros pred H.
    apply predict_return_inv in H
      as (splits & indices & raw & _ & Hsplits & _ & Hraw & _).
    destruct (predict_loop_rows _ _ _ _ _ _ Hraw (List.length splits))
      as (c & Hc & Hlt); [apply in_seq; lia |].
    exists splits, c; repeat split; auto; lia.
  - intros splits coef indices Hfitted Hsplits Hcoef Hlen Hdig Hbounds.
    unfold predict.
    rewrite Hfitted, Hsplits, Hcoef; cbn [negb raise_if obind].
    assert (Hb : (if negb (is_none lb) || negb (is_none ub)
                  then _check_bounds lb ub else Return tt) = Return tt).
    { destruct Hbounds as [[-> ->] | Hb]; [reflexivity |].
      now destruct (negb (is_none lb) || negb (is_none ub)). }
    rewrite Hb, Hdig; cbn [obind].
    rewrite predict_loop_short; [reflexivity | lia].
Qed.

(** A table with one row and one split point, no sample. *)
Lemma predict_needs_row_per_segment_witness :
  predict (fitted_with default_estimator [[F 1]] [F 0]) [] PyNone PyNone
  = Raise IndexError.
Proof.
  apply (proj2 (predict_needs_row_per_segment
                  (fitted_with default_estimator [[F 1]] [F 0]) []
                  PyNone PyNone) [F 0] [[F 1]] []);
    try (vm_compute; reflexivity);
    try apply le_n; left; split; reflexivity.
Defined.

Lemma to_float64_number v e :
  to_float64 v = Raise e -> isinstance_Number v = true -> e = OverflowError.
Proof.
  destruct v; simpl; try discriminate.
  destruct (is_finite (float_of_Z z)); [discriminate | now intros [= <-]].
Qed.

Lemma np_clip_raises raw lb ub e :
  np_clip raw lb ub = Raise e ->
  negb (is_none lb) || negb (is_none ub) = true ->
  _check_bounds lb ub = Return tt ->
  e = OverflowError.
Proof.
  intros Hclip Hb Hcheck.
  apply check_bounds_spec in Hcheck as (Hlb & Hub & _).
  unfold np_clip in Hclip.
  destruct (is_none lb) eqn:Hnl, (is_none ub) eqn:Hnu; try discriminate.
  - destruct Hub as [-> | Hub]; [discriminate |].
    apply obind_Raise_inv in Hclip as [H | (? & _ & H)];
      [eauto using to_float64_number | discriminate].
  - destruct Hlb as [-> | Hlb]; [discriminate |].
    apply obind_Raise_inv in Hclip as [H | (? & _ & H)];
      [eauto using to_float64_number | discriminate].
  - destruct Hlb as [-> | Hlb]; [discriminate |].
    destruct Hub as [-> | Hub]; [discriminate |].
    apply obind_Raise_inv in Hclip as [H | (? & _ & H)];
      [eauto using to_float64_number |].
    apply obind_Raise_inv in H as [H | (? & _ & H)];
      [eauto using to_float64_number | discriminate].
Qed.

(** What [predict] can raise on an instance whose fitted attributes go
    together. *)
Lemma predict_raises self x lb ub e :
  consistent self ->
  predict self x lb ub = Raise e ->
  (e = NotFittedError /\ _is_fitted self = false) \/
  (_is_fitted self = true /\
   (e = TypeError "lb" \/ e = TypeError "ub" \/ e = ValueError "lb > ub" \/
    e = ValueError "bins must be monotonic" \/ e = IndexError \/
    e = OverflowError)).
Proof.
  unfold consistent, predict; intros Hc H.
  destruct (_is_fitted self); cbn [negb raise_if obind] in H;
    [right; split; [reflexivity |] | injection H as <-; now left].
  destruct Hc as [Hcoef Hsplits].
  destruct (negb (is_none lb) || negb (is_none ub)) eqn:Hb.
  - apply obind_Raise_inv in H as [H | ([] & Hcheck & H)].
    { apply check_bounds_raises in H as [(-> & _) | [(-> & _) | (-> & _)]];
        auto. }
    destruct (_splits self) as [splits |]; [| contradiction].
    cbn [obind] in H.
    apply obind_Raise_inv in H as [H | (idx & _ & H)].
    { apply digitize_raises in H as ->; auto 6. }
    apply obind_Raise_inv in H as [H | (raw & _ & H)].
    { apply predict_loop_raises in H as [(_ & Hnone) | (-> & _)];
        [contradiction | auto 6]. }
    apply np_clip_raises in H as ->; auto 7.
  - cbn [obind] in H.
    destruct (_splits self) as [splits |]; [| contradiction].
    cbn [obind] in H.
    apply obind_Raise_inv in H as [H | (idx & _ & H)].
    { apply digitize_raises in H as ->; auto 6. }
    apply obind_Raise_inv in H as [H | (raw & _ & H)].
    { apply predict_loop_raises in H as [(_ & Hnone) | (-> & _)];
        [contradiction | auto 6]. }
    discriminate.
Qed.

Lemma predict_array_like_ndarray self a lb ub :
  predict_array_like self (NdArray a) lb ub = predict self a lb ub.
Proof. reflexivity. Qed.

(** A list as [x]: the call stops at [x.shape], if not before. *)
Lemma predict_list_raises self l lb ub :
  consistent self ->
  exists e, predict_array_like self (PyList l) lb ub = Raise e /\
    ((e = NotFittedError /\ _is_fitted self = false) \/
     (_is_fitted self = true /\
      ((exists what, e = TypeError what) \/ e = ValueError "lb > ub" \/
       e = ValueError "bins must be monotonic" \/
       e = AttributeError "shape"))).
Proof.
  unfold predict_array_like, consistent; intros Hc.
  destruct (_is_fitted self); cbn [negb raise_if obind];
    [| eexists; split; [reflexivity | now left]].
  destruct Hc as [_ Hs].
  destruct (if negb (is_none lb) || negb (is_none ub)
            then _check_bounds lb ub else Return tt) as [[] | e] eqn:Hcheck;
    cbn [obind].
  - destruct (_splits self) as [splits |]; [| contradiction].
    cbn [obind].
    destruct (digitize (np_asarray (PyList l)) splits) as [idx | e] eqn:Hdig;
      cbn [obind shape].
    + eexists; split; [reflexivity | right; split; auto].
    + apply digitize_raises in Hdig as ->.
      eexists; split; [reflexivity | right; split; auto].
  - destruct (negb (is_none lb) || negb (is_none ub)); [| discriminate].
    eexists; split; [reflexivity | right; split; [reflexivity |]].
    apply check_bounds_raises in Hcheck
      as [(-> & _) | [(-> & _) | (-> & _)]]; eauto.
Qed.

(** X18. What a call of [predict] raises, for [x] an ndarray or a list, on
    an instance that [__init__] and calls of [fit] have produced (a
    [consistent] one).  It raises [NotFittedError] exactly when no fit has
    returned.  Otherwise it raises only: [TypeError] when the bounds are
    checked, [ValueError] for [lb > ub] or for stored split points that are
    neither ascending nor descending, [AttributeError] for the attribute
    [shape] that a list does not have, and, with an ndarray, [IndexError]
    for a table with too few rows and [OverflowError] for an integer bound
    beyond the float64 range.  A fitted attribute is never missing; and
    with a list the call does not return. *)
Theorem predict_error_classes self x lb ub e :
  consistent self ->
  predict_array_like self x lb ub = Raise e ->
  ((e = NotFittedError /\ _is_fitted self = false) \/
   (_is_fitted self = true /\
    ((exists what, e = TypeError what) \/ e = ValueError "lb > ub" \/
     e = ValueError "bins must be monotonic" \/
     (e = AttributeError "shape" /\ exists l, x = PyList l) \/
     ((e = IndexError \/ e = OverflowError) /\ exists a, x = NdArray a)))) /\
  (forall l pred, predict_array_like self (PyList l) lb ub <> Return pred).
Proof.
  intros Hc He; split.
  - destruct x as [a | l].
    + rewrite predict_array_like_ndarray in He.
      apply predict_raises in He
        as [? | (Hf & [-> | [-> | [-> | [-> | [-> | ->]]]]])]; auto;
        right; (split; [assumption |]); eauto 8.
    + destruct (predict_list_raises self l lb ub Hc) as (e' & He' & Hcls).
      rewrite He' in He; injection He as <-.
      destruct Hcls as [? | (Hf & [Ht | [-> | [-> | ->]]])]; auto;
        right; (split; [assumption |]); eauto 7.
  - intros l pred Hp.
    destruct (predict_list_raises self l lb ub Hc) as (e' & He' & _).
    congruence.
Qed.

(** A fitted instance and a list of two samples. *)
Lemma predict_error_classes_witness :
  let fitted := fitted_with default_estimator (staircase [F 1]) [F 1] in
  predict_array_like fitted (PyList [F 0; F 2]) PyNone PyNone
  = Raise (AttributeError "shape") /\
  ((AttributeError "shape" = NotFittedError /\ _is_fitted fitted = false) \/
   (_is_fitted fitted = true /\
    ((exists what, AttributeError "shape" = TypeError what) \/
     AttributeError "shape" = ValueError "lb > ub" \/
     AttributeError "shape" = ValueError "bins must be monotonic" \/
     (AttributeError "shape" = AttributeError "shape" /\
      exists l, PyList [F 0; F 2] = PyList l) \/
     ((AttributeError "shape" = IndexError \/
       AttributeError "shape" = OverflowError) /\
      exists a, PyList [F 0; F 2] = NdArray a)))).
Proof.
  intros fitted; split; [vm_compute; reflexivity |].
  apply (proj1 (predict_error_classes fitted (PyList [F 0; F 2])
                  PyNone PyNone (AttributeError "shape")
                  ltac:(split; discriminate)
                  ltac:(vm_compute; reflexivity))).
Defined.

(* ------------------------------------------------------------------ *)
(** ** [fit_predict] *)

(** X15. [fit_predict] is [fit] followed by [predict] on the same [x] and
    bounds: when [fit] raises, it raises the same exception and the
    instance is unchanged; when [fit] returns, the outcome is the one of
    [predict] on the fitted instance, never [NotFittedError], and the
    instance stays fitted even if that [predict] raises. *)
Theorem fit_predict_composes `{Backend} x y splits lb ub self o self' :
  fit_predict x y splits lb ub self = (o, self') ->
  (exists e, fit x y splits lb ub self = (Raise e, self) /\
             o = Raise e /\ self' = self) \/
  (fit x y splits lb ub self = (Return tt, self') /\
   o = predict self' x lb ub /\ _is_fitted self' = true /\
   o <> Raise NotFittedError).
Proof.
  unfold fit_predict, mbind, get_self, lift.
  destruct (fit x y splits lb ub self) as [[[] | e] s] eqn:Hfit.
  - intros [= <- <-]; right.
    pose proof (fit_return_inv _ _ _ _ _ _ _ Hfit)
      as (_ & _ & m & c & _ & _ & Hs).
    assert (Hfitted : _is_fitted s = true) by (subst s; reflexivity).
    assert (Hcons : consistent s) by (subst s; split; discriminate).
    repeat split; auto.
    intros Hraise.
    apply predict_raises in Hraise as [[_ Hf] | [_ Hcases]];
      [congruence | | assumption].
    repeat (destruct Hcases as [Hcases | Hcases]; try discriminate).
  - intros [= <- <-]; left.
    pose proof (fit_raise_unchanged _ _ _ _ _ _ _ _ Hfit); subst s; eauto.
Qed.

(** Split points in no order: [fit] returns, [predict] raises, and the
    instance is left fitted. *)
Lemma fit_predict_composes_witness :
  fst (@fit_predict staircase_backend [F 0; F 2] [F 5; F 7] [F 1; F 3; F 2]
                    PyNone PyNone default_estimator)
  = Raise (ValueError "bins must be monotonic") /\
  _is_fitted (snd (@fit_predict staircase_backend [F 0; F 2] [F 5; F 7]
                                [F 1; F 3; F 2] PyNone PyNone
                                default_estimator)) = true.
Proof.
  destruct (@fit_predict_composes staircase_backend [F 0; F 2] [F 5; F 7]
              [F 1; F 3; F 2] PyNone PyNone default_estimator _ _
              (surjective_pairing _))
    as [(e & Hfit & _) | (_ & _ & Hfitted & _)].
  - vm_compute in Hfit; discriminate.
  - split; [vm_compute; reflexivity | exact Hfitted].
Defined.

(* ------------------------------------------------------------------ *)
(** ** [predict]: the values *)

Lemma loop_values_raw (coef : coef_table) (n : nat) (idx : list nat) (x : array) :
  List.length idx = List.length x ->
  Forall (fun k => k < n)%nat idx -> (n <= List.length coef)%nat ->
  map (loop_value coef (seq 0 n))
      (combine (zeros (List.length x)) (combine idx x))
  = map (fun kv => horner (rev (nth (fst kv) coef [])) (snd kv))
        (combine idx x).
Proof.
  intros Hlen Hall Hn; revert x Hlen.
  induction Hall as [| k idx Hk _ IH]; intros [| v x]; simpl;
    try reflexivity; try discriminate.
  intros [= Hlen]; rewrite <- IH by assumption; f_equal.
  unfold loop_value; cbn [fst snd].
  assert (Hex : existsb (fun i => Nat.eqb i k) (seq 0 n) = true).
  { apply existsb_exists; exists k; split;
      [apply in_seq; lia | apply Nat.eqb_refl]. }
  rewrite Hex.
  destruct (nth_error coef k) as [row |] eqn:Hrow.
  - now rewrite (nth_error_nth _ _ _ Hrow).
  - apply nth_error_None in Hrow; lia.
Qed.

(** The predictions before clipping, for any stored split points that
    [digitize] accepts. *)
Lemma predict_raw_formula self x lb ub pred :
  predict self x lb ub = Return pred ->
  exists splits coef idx raw,
    _splits self = Some splits /\ coef_ self = Some coef /\
    digitize x splits = Return idx /\
    List.length idx = List.length x /\
    Forall (fun k => k < List.length coef)%nat idx /\
    raw = map (fun kv => horner (rev (nth (fst kv) coef [])) (snd kv))
              (combine idx x) /\
    (if negb (is_none lb) || negb (is_none ub)
     then _check_bounds lb ub = Return tt /\ np_clip raw lb ub = Return pred
     else pred = raw).
Proof.
  intros H.
  apply predict_return_inv in H
    as (splits & idx & raw & _ & Hsplits & Hdig & Hraw & Hclip).
  destruct (predict_loop_rows _ _ _ _ _ _ Hraw (List.length splits))
    as (coef & Hcoef & Hlt); [apply in_seq; lia |].
  destruct (digitize_spec _ _ _ Hdig) as [Hlen Hle].
  assert (Hall : Forall (fun k => k < List.length splits + 1)%nat idx)
    by (eapply Forall_impl; [| exact Hle]; simpl; intros; lia).
  exists splits, coef, idx, raw.
  repeat (split; [assumption |]).
  split; [eapply Forall_impl; [| exact Hall]; simpl; intros; lia |].
  split; [| assumption].
  rewrite Hcoef, predict_loop_values in Hraw.
  - injection Hraw as <-. apply loop_values_raw; auto; lia.
  - assumption.
  - unfold zeros; now rewrite repeat_length.
  - intros i Hi; apply in_seq in Hi; lia.
Qed.

Lemma horner_lowest_power_first c0 cs v :
  horner (rev (c0 :: cs)) v = fadd (fmul (horner (rev cs) v) v) c0.
Proof.
  unfold horner; simpl rev; now rewrite fold_left_app.
Qed.

(** X19. Without bounds, the prediction for a sample is the polynomial of
    the row that [np.digitize] selects for it, evaluated at the sample by
    Horner's rule with the first entry of the row as the constant term:
    [p(v) = c0 + v * (c1 + v * (...))] in float64 arithmetic.  This holds
    for all stored split points that [digitize] accepts, ascending or
    descending. *)
Theorem predict_evaluates_selected_row self x pred :
  predict self x PyNone PyNone = Return pred ->
  (exists splits coef idx,
      _splits self = Some splits /\ coef_ self = Some coef /\
      digitize x splits = Return idx /\
      pred = map (fun kv => horner (rev (nth (fst kv) coef [])) (snd kv))
                 (combine idx x)) /\
  (forall c0 cs v,
      horner (rev (c0 :: cs)) v = fadd (fmul (horner (rev cs) v) v) c0).
Proof.
  intros H; split; [| apply horner_lowest_power_first].
  apply predict_raw_formula in H
    as (splits & coef & idx & raw & Hs & Hc & Hd & _ & _ & -> & Hp).
  cbn in Hp; subst pred; eauto 7.
Qed.

(** Two segments, the lines [10 + 1 * v] and [20 + 2 * v]. *)
Lemma predict_evaluates_selected_row_witness :
  predict (fitted_with default_estimator [[F 10; F 1]; [F 20; F 2]] [F 1])
          [F 0; F 3] PyNone PyNone = Return [F 10; F 26] /\
  exists splits coef idx,
    Some [F 1] = Some splits /\
    Some [[F 10; F 1]; [F 20; F 2]] = Some coef /\
    digitize [F 0; F 3] splits = Return idx /\
    [F 10; F 26]
    = map (fun kv => horner (rev (nth (fst kv) coef [])) (snd kv))
          (combine idx [F 0; F 3]).
Proof.
  split; [vm_compute; reflexivity |].
  apply (predict_evaluates_selected_row
           (fitted_with default_estimator [[F 10; F 1]; [F 20; F 2]] [F 1])
           [F 0; F 3] [F 10; F 26]).
  vm_compute; reflexivity.
Defined.

Lemma fmul_nan_l v : fmul S754_nan v = S754_nan.
Proof. reflexivity. Qed.

Lemma fadd_nan_l v : fadd S754_nan v = S754_nan.
Proof. reflexivity. Qed.

Lemma horner_step_nan p v :
  fold_left (fun y pv => fadd (fmul y v) pv) p S754_nan = S754_nan.
Proof.
  induction p as [| pv p IH]; cbn [fold_left]; [reflexivity |].
  rewrite fmul_nan_l, fadd_nan_l; exact IH.
Qed.

(** A polynomial with at least one coefficient, at NaN or at an infinity:
    [polyval] starts from 0, and [0 * inf] is NaN. *)
Lemma horner_non_finite p v :
  p <> [] -> is_finite v = false -> horner p v = S754_nan.
Proof.
  destruct p as [| pv p]; [contradiction |]; intros _ Hv.
  unfold horner; cbn [fold_left].
  replace (fmul f_zero v) with S754_nan
    by (destruct v; try discriminate; reflexivity).
  rewrite fadd_nan_l; apply horner_step_nan.
Qed.

Lemma Forall2_combine_map {A B C} (Q : B -> C -> Prop) (g : A * B -> C)
    (idx : list A) (x : list B) :
  List.length idx = List.length x ->
  (forall k v, In k idx -> Q v (g (k, v))) ->
  Forall2 Q x (map g (combine idx x)).
Proof.
  revert x; induction idx as [| k idx IH]; intros [| v x]; simpl;
    try discriminate; intros Hlen HQ; constructor; auto.
Qed.

Lemma Forall2_map_r {A B} (Q : A -> B -> Prop) (f : B -> B) l l' :
  Forall2 Q l l' -> (forall a b, Q a b -> Q a (f b)) ->
  Forall2 Q l (map f l').
Proof. induction 1; simpl; constructor; auto. Qed.

Lemma np_clip_keeps_nan raw lb ub pred :
  np_clip raw lb ub = Return pred ->
  exists f, pred = map f raw /\ forall r, is_nan r = true -> is_nan (f r) = true.
Proof.
  unfold np_clip.
  destruct (is_none lb), (is_none ub); try discriminate;
    destruct (to_float64 lb) as [lo |], (to_float64 ub) as [hi |]; cbn;
    try discriminate; intros [= <-]; eexists; (split; [reflexivity |]);
    intros r Hr; destruct r; try discriminate;
    unfold np_maximum, np_minimum, npy_clip; cbn [is_nan]; try reflexivity.
  destruct (is_nan lo || is_nan hi); [reflexivity |].
  destruct hi as [| | | sh mh eh]; reflexivity.
Qed.

(** X20. A sample that is NaN or infinite is predicted as NaN, with or
    without bounds, whenever the rows of the table are not empty:
    [predict] does not check [x], and neither the polynomial nor the
    clipping turns NaN into a number. *)
Theorem predict_non_finite_sample self x lb ub pred :
  (forall coef, coef_ self = Some coef -> Forall (fun row => row <> []) coef) ->
  predict self x lb ub = Return pred ->
  Forall2 (fun v p => is_finite v = false -> is_nan p = true) x pred.
Proof.
  intros Hrows H.
  apply predict_raw_formula in H
    as (splits & coef & idx & raw & _ & Hc & _ & Hlen & Hidx & -> & Hp).
  specialize (Hrows _ Hc).
  assert (Hraw : Forall2 (fun v p => is_finite v = false -> is_nan p = true) x
                   (map (fun kv => horner (rev (nth (fst kv) coef []))
                                          (snd kv)) (combine idx x))).
  { apply Forall2_combine_map; [assumption |].
    intros k v Hk Hv; cbn [fst snd].
    rewrite horner_non_finite; auto.
    rewrite Forall_forall in Hidx, Hrows.
    specialize (Hrows (nth k coef []) (nth_In _ _ (Hidx k Hk))).
    intros Hrev; apply Hrows.
    apply (f_equal (@rev _)) in Hrev; now rewrite rev_involutive in Hrev. }
  destruct (negb (is_none lb) || negb (is_none ub)); [| now subst].
  destruct Hp as [_ Hclip].
  apply np_clip_keeps_nan in Hclip as (f & -> & Hf).
  apply Forall2_map_r; auto.
Qed.

Lemma predict_non_finite_sample_witness :
  Forall2 (fun v p => is_finite v = false -> is_nan p = true)
          [F 0; S754_infinity false] [F 1; S754_nan].
Proof.
  apply (predict_non_finite_sample
           (fitted_with default_estimator (staircase [F 1]) [F 1])
           [F 0; S754_infinity false] (PyFloat (F 0)) (PyFloat (F 1))).
  - intros coef [= <-]; repeat constructor; discriminate.
  - vm_compute; reflexivity.
Defined.

(* ------------------------------------------------------------------ *)
(** ** [predict]: what clipping does to a value *)

Lemma SFltb_leb_trans a b c :
  SFltb a b = true -> SFleb b c = true -> SFltb a c = true.
Proof.
  rewrite !SFltb_Lt; unfold SFleb; intros Hab Hbc.
  destruct (SFcompare b c) as [[] |] eqn:Hc; try discriminate.
  - eauto using SFcompare_Eq_r.
  - eauto using SFcompare_trans.
Qed.

Lemma SFeqb_refl a : is_nan a = false -> SFeqb a a = true.
Proof. intros H; unfold SFeqb; now rewrite SFcompare_refl. Qed.

Lemma SFeqb_sym a b : SFeqb a b = true -> SFeqb b a = true.
Proof.
  unfold SFeqb; rewrite (SFcompare_antisym a b).
  destruct (SFcompare a b) as [[] |]; simpl; congruence.
Qed.

Lemma SFleb_not_ltb_eqb a b :
  SFleb a b = true -> SFltb a b = false -> SFeqb a b = true.
Proof.
  unfold SFleb, SFltb, SFeqb; destruct (SFcompare a b) as [[] |]; congruence.
Qed.

Lemma SFeqb_ltb_l a b c :
  SFeqb a b = true -> SFltb a c = SFltb b c.
Proof.
  intros Hab; apply SFeqb_Eq in Hab.
  assert (Hba : SFcompare b a = Some Eq)
    by (rewrite (SFcompare_antisym a b), Hab; reflexivity).
  unfold SFltb.
  destruct (SFcompare b c) as [r |] eqn:Hbc.
  - now rewrite (SFcompare_Eq_l _ _ _ _ Hab Hbc).
  - destruct (SFcompare a c) as [r |] eqn:Hac; [| reflexivity].
    rewrite (SFcompare_Eq_l _ _ _ _ Hba Hac) in Hbc; discriminate.
Qed.

Lemma SFleb_not_ltb a b : SFleb a b = true -> SFltb b a = false.
Proof.
  unfold SFleb, SFltb; rewrite (SFcompare_antisym a b).
  destruct (SFcompare a b) as [[] |]; simpl; congruence.
Qed.

Lemma clip_values_two_sided r lo hi :
  SFltb hi lo = false -> is_nan lo = false -> is_nan hi = false ->
  let p := npy_clip r lo hi in
  (SFltb r lo = true -> SFeqb p lo = true) /\
  (SFltb hi r = true -> SFeqb p hi = true) /\
  (SFleb lo r = true -> SFleb r hi = true -> SFeqb p r = true).
Proof.
  intros Hbounds Hlo Hhi; cbn zeta; unfold npy_clip.
  rewrite Hlo, Hhi; cbn [orb].
  split; [| split].
  - intros Hr; rewrite Hr, Hbounds; now apply SFeqb_refl.
  - intros Hr. destruct (SFltb r lo) eqn:Hrl.
    + rewrite (SFltb_trans _ _ _ Hr Hrl) in Hbounds; discriminate.
    + rewrite Hr; now apply SFeqb_refl.
  - intros Hlr Hrh. destruct (SFleb_not_nan _ _ Hlr) as [_ Hrn].
    rewrite (SFleb_not_ltb _ _ Hlr), (SFleb_not_ltb _ _ Hrh).
    now apply SFeqb_refl.
Qed.

Lemma clip_values_lower r lo :
  let p := np_maximum r lo in
  (SFltb r lo = true -> SFeqb p lo = true) /\
  (SFleb lo r = true -> SFeqb p r = true).
Proof.
  cbn zeta; unfold np_maximum; split.
  - intros Hr. destruct (SFltb_not_nan _ _ Hr) as [Hrn Hln].
    rewrite Hrn, (SFltb_asym _ _ Hr); now apply SFeqb_refl.
  - intros Hr. destruct (SFleb_not_nan _ _ Hr) as [_ Hrn].
    rewrite Hrn. destruct (SFltb lo r) eqn:Hlt; [now apply SFeqb_refl |].
    now apply SFleb_not_ltb_eqb.
Qed.

Lemma clip_values_upper r hi :
  let p := np_minimum r hi in
  (SFltb hi r = true -> SFeqb p hi = true) /\
  (SFleb r hi = true -> SFeqb p r = true).
Proof.
  cbn zeta; unfold np_minimum; split.
  - intros Hr. destruct (SFltb_not_nan _ _ Hr) as [Hhn Hrn].
    rewrite Hrn, (SFltb_asym _ _ Hr); now apply SFeqb_refl.
  - intros Hr. destruct (SFleb_not_nan _ _ Hr) as [Hrn _].
    rewrite Hrn. destruct (SFltb r hi) eqn:Hlt; [now apply SFeqb_refl |].
    now apply SFeqb_sym, SFleb_not_ltb_eqb.
Qed.

(** X21. With float bounds that are not NaN, clipping does what the
    docstring of [predict] says and no more: a prediction below [lb]
    becomes [lb], a prediction above [ub] becomes [ub], and a prediction
    within the bounds given is returned as the same number. *)
Theorem predict_clips_only_outside self x lb ub pred :
  float_or_none lb -> float_or_none ub ->
  ~ nan_bound lb -> ~ nan_bound ub ->
  predict self x lb ub = Return pred ->
  exists raw,
    predict self x PyNone PyNone = Return raw /\
    Forall2
      (fun r p =>
         (forall lo, lb = PyFloat lo -> SFltb r lo = true ->
                     SFeqb p lo = true) /\
         (forall hi, ub = PyFloat hi -> SFltb hi r = true ->
                     SFeqb p hi = true) /\
         (is_nan r = false -> above lb r -> below ub r -> SFeqb p r = true))
      raw pred.
Proof.
  intros Hlb Hub Hnl Hnu Hpredict.
  apply predict_return_inv in Hpredict
    as (splits & indices & raw & Hfitted & Hsplits & Hindices & Hraw & Hclip).
  exists raw; split; [eauto using predict_unbounded |].
  unfold above, below, nan_bound in *.
  destruct Hlb as [-> | [lo ->]], Hub as [-> | [hi ->]]; cbn in Hclip.
  - subst pred; apply Forall2_diag; intros r.
    repeat split; try discriminate. intros; now apply SFeqb_refl.
  - destruct Hclip as [_ [= <-]].
    assert (Hhi : is_nan hi = false) by (destruct hi; try reflexivity; now destruct Hnu).
    apply Forall2_map_self; intros r.
    destruct (clip_values_upper r hi) as [Hout Hin].
    repeat split; try discriminate.
    + intros ? [= <-] Hr; exact (Hout Hr).
    + intros Hr _ [Hb | Hb]; [discriminate |].
      exact (Hin Hb).
  - destruct Hclip as [_ [= <-]].
    assert (Hlo : is_nan lo = false) by (destruct lo; try reflexivity; now destruct Hnl).
    apply Forall2_map_self; intros r.
    destruct (clip_values_lower r lo) as [Hout Hin].
    repeat split; try discriminate.
    + intros ? [= <-] Hr; exact (Hout Hr).
    + intros Hr [Ha | Ha] _; [discriminate |].
      exact (Hin Ha).
  - destruct Hclip as [Hcheck [= <-]].
    apply check_bounds_floats in Hcheck.
    assert (Hlo : is_nan lo = false) by (destruct lo; try reflexivity; now destruct Hnl).
    assert (Hhi : is_nan hi = false) by (destruct hi; try reflexivity; now destruct Hnu).
    apply Forall2_map_self; intros r.
    destruct (clip_values_two_sided r lo hi Hcheck Hlo Hhi)
      as (Hbelow & Habove & Hin).
    repeat split.
    + intros ? [= <-]; exact Hbelow.
    + intros ? [= <-]; exact Habove.
    + intros _ [Ha | Ha] [Hb | Hb]; try discriminate; auto.
Qed.

Lemma predict_clips_only_outside_witness :
  let fitted := fitted_with default_estimator (staircase [F 1; F 3]) [F 1; F 3] in
  exists raw,
    predict fitted [F 0; F 2; F 4] PyNone PyNone = Return raw /\
    Forall2
      (fun r p =>
         (forall lo, PyFloat (F 12) = PyFloat lo -> SFltb r lo = true ->
                     SFeqb p lo = true) /\
         (forall hi, PyFloat (F 25) = PyFloat hi -> SFltb hi r = true ->
                     SFeqb p hi = true) /\
         (is_nan r = false -> above (PyFloat (F 12)) r ->
          below (PyFloat (F 25)) r -> SFeqb p r = true))
      raw [F 12; F 20; F 25].
Proof.
  intros fitted.
  apply (predict_clips_only_outside fitted [F 0; F 2; F 4]
           (PyFloat (F 12)) (PyFloat (F 25))).
  - right; eexists; reflexivity.
  - right; eexists; reflexivity.
  - discriminate.
  - discriminate.
  - vm_compute; reflexivity.
Defined.

(* ------------------------------------------------------------------ *)
(** ** [predict]: degree 0 *)

Lemma horner_constant c v :
  is_finite v = true -> same_number (horner [c] v) c.
Proof.
  unfold horner, same_number; cbn [fold_left].
  destruct v as [sv | | | sv mv ev]; try discriminate; intros _;
    destruct c as [[] | | |]; destruct sv; cbn; eauto.
Qed.

Lemma Forall2_combine_map_l {A B C} (Q : A -> C -> Prop) (g : A * B -> C)
    (idx : list A) (x : list B) :
  List.length idx = List.length x ->
  (forall k v, In k idx -> In v x -> Q k (g (k, v))) ->
  Forall2 Q idx (map g (combine idx x)).
Proof.
  revert x; induction idx as [| k idx IH]; intros [| v x]; simpl;
    try discriminate; intros Hlen HQ; constructor; auto.
Qed.

(** X22. A table with one coefficient per row gives a piecewise constant
    prediction: without bounds, every finite sample is predicted as the
    coefficient of the row that [np.digitize] selects for it (as a number:
    a zero may come back with the other sign). *)
Theorem predict_piecewise_constant self x pred :
  (forall coef, coef_ self = Some coef ->
                Forall (fun row => List.length row = 1%nat) coef) ->
  forallb is_finite x = true ->
  predict self x PyNone PyNone = Return pred ->
  exists splits coef idx,
    _splits self = Some splits /\ coef_ self = Some coef /\
    digitize x splits = Return idx /\
    Forall2 (fun k p => same_number p (nth 0 (nth k coef []) S754_nan))
            idx pred.
Proof.
  intros Hrows Hx H.
  apply predict_raw_formula in H
    as (splits & coef & idx & raw & Hs & Hc & Hd & Hlen & Hidx & -> & Hp).
  cbn in Hp; subst pred.
  exists splits, coef, idx; repeat (split; [assumption |]).
  specialize (Hrows _ Hc).
  apply Forall2_combine_map_l; [assumption |].
  intros k v Hk Hv; cbn [fst snd].
  rewrite Forall_forall in Hidx, Hrows; rewrite forallb_forall in Hx.
  specialize (Hrows (nth k coef []) (nth_In _ _ (Hidx k Hk))).
  destruct (nth k coef []) as [| c [| ? ?]]; try discriminate.
  apply horner_constant; auto.
Qed.

Lemma predict_piecewise_constant_witness :
  exists splits coef idx,
    Some [F 1; F 3] = Some splits /\
    Some (staircase [F 1; F 3]) = Some coef /\
    digitize [F 0; F 1; F 5] splits = Return idx /\
    Forall2 (fun k p => same_number p (nth 0 (nth k coef []) S754_nan))
            idx [F 10; F 20; F 30].
Proof.
  apply (predict_piecewise_constant
           (fitted_with default_estimator (staircase [F 1; F 3]) [F 1; F 3])
           [F 0; F 1; F 5] [F 10; F 20; F 30]).
  - intros coef [= <-]; repeat constructor.
  - reflexivity.
  - vm_compute; reflexivity.
Defined.

(* ------------------------------------------------------------------ *)
(** ** [monotonic_trend_constraints] *)

(** X23. [monotonic_trend_constraints] returns [None] exactly for a trend
    that is none of the six names it knows ([None] among them), whatever
    [c], [D] and [t] are; it has no error path. *)
Theorem trend_constraints_none_iff {T V : Type} (monotonic_trend : pyval)
    (c : V) (D : matrix T) (t : option Z) :
  monotonic_trend_constraints monotonic_trend c D t = NoConstraints <->
  (forall name,
      In name ["ascending"; "convex"; "descending"; "concave"; "valley";
               "peak"] ->
      monotonic_trend <> PyStr name).
Proof.
  unfold monotonic_trend_constraints; split.
  - intros H name Hin ->.
    simpl in Hin; repeat destruct Hin as [<- | Hin]; try discriminate;
      contradiction.
  - intros H.
    destruct (py_in monotonic_trend [PyStr "ascending"; PyStr "convex"]) eqn:H1.
    { apply (py_in_strs _ ["ascending"; "convex"]) in H1 as (s & -> & Hs).
      exfalso; apply (H s); [simpl in *; tauto | reflexivity]. }
    destruct (py_in monotonic_trend [PyStr "descending"; PyStr "concave"]) eqn:H2.
    { apply (py_in_strs _ ["descending"; "concave"]) in H2 as (s & -> & Hs).
      exfalso; apply (H s); [simpl in *; tauto | reflexivity]. }
    destruct (py_eq monotonic_trend (PyStr "valley")) eqn:H3.
    { apply py_eq_str in H3; exfalso; apply (H "valley"); simpl; tauto. }
    destruct (py_eq monotonic_trend (PyStr "peak")) eqn:H4.
    { apply py_eq_str in H4; exfalso; apply (H "peak"); simpl; tauto. }
    reflexivity.
Qed.

Lemma trend_constraints_none_iff_witness :
  monotonic_trend_constraints PyNone "c" [[1; 2]] (Some 0)
  = @NoConstraints Z string.
Proof.
  apply (proj2 (trend_constraints_none_iff PyNone "c" [[1; 2]] (Some 0))).
  intros name _; discriminate.
Defined.
